(** * nftfi.js: loan-action router and fixed-loan contract adapters

    A shallow embedding of
      - [src/nftfi/loans.js]                          (class [Loans]),
      - [src/nftfi/listings.js]                       (class [Listings]),
      - [src/nftfi/loans/fixed/v2_3/index.js]         (class [LoansFixedV2_3]),
      - [src/nftfi/loans/fixed/v2_1/index.js]         (class [LoansFixedV2_1]),
      - [src/nftfi/loans/fixed/collection/v2_3/index.js]
                                                      (class [LoansFixedCollectionV2_3]),
      - the pagination defaults and contract names of [src/nftfi/config.js].

    JavaScript values are a small inductive type; property reads, truthiness,
    [String(v)] and [v.toLocaleString(..)] follow ECMA-262.  An [async] method
    is a state transformer that either returns or throws ([await] of a
    rejected promise throws); every call that leaves the SDK (contract
    factory, contract handle, REST client) is appended to a trace. *)

From Stdlib Require Import ZArith List String Ascii Bool Lia.
From Stdlib Require Import DecimalString DecimalPos DecimalZ.
Import ListNotations.
Open Scope string_scope.
Open Scope Z_scope.

(* ------------------------------------------------------------------ *)
(** ** JavaScript values *)

(** [VNum z] is the Number whose value is the IEEE-754 double nearest to the
    integer [z] (what the literal [z] evaluates to); [VNaN] is [NaN].
    Negative zero and non-integral Numbers are outside the model.
    Objects are association lists of own data properties. *)
#[warnings="-register-all"]
Inductive Value : Type :=
| VUndefined
| VNull
| VBool (b : bool)
| VNum (z : Z)
| VNaN
| VBigInt (z : Z)
| VStr (s : string)
| VArr (elems : list Value)
| VObj (props : list (string * Value)).

(** What a [throw] carries.  [TypeError] is raised by the language itself
    (reading a property of [undefined]/[null], calling a non-function);
    [AssertionError] by the assertion collaborator; [Fault] is any value
    thrown by an injected backend. *)
Inductive Exn : Type :=
| TypeError
| AssertionError (msg : string)
| Fault (v : Value).

Inductive Outcome (A : Type) : Type :=
| Returned (a : A)
| Thrown (e : Exn).
Arguments Returned {A} a.
Arguments Thrown {A} e.

(** ToBoolean. *)
Definition truthy (v : Value) : bool :=
  match v with
  | VUndefined | VNull | VNaN => false
  | VBool b => b
  | VNum z | VBigInt z => negb (z =? 0)
  | VStr s => negb (s =? "")%string
  | VArr _ | VObj _ => true
  end.

(** [a || b] on values. *)
Definition js_or (a b : Value) : Value := if truthy a then a else b.

Fixpoint lookup (k : string) (props : list (string * Value)) : Value :=
  match props with
  | [] => VUndefined
  | (k', v) :: rest => if (k =? k')%string then v else lookup k rest
  end.

(** [v?.k]: [undefined] on a nullish base; own data property of an object;
    [undefined] for the property names read by this code on any other
    value (none of them is a built-in of a primitive or of an array). *)
Definition optProp (v : Value) (k : string) : Value :=
  match v with
  | VObj props => lookup k props
  | _ => VUndefined
  end.

(** [v.k]: as [v?.k], but a TypeError on [undefined] and [null]. *)
Definition getProp (v : Value) (k : string) : Outcome Value :=
  match v with
  | VUndefined | VNull => Thrown TypeError
  | _ => Returned (optProp v k)
  end.

(** [v === 1]. *)
Definition strict_eq_1 (v : Value) : bool :=
  match v with
  | VNum z => z =? 1
  | _ => false
  end.

(* ------------------------------------------------------------------ *)
(** ** Number to string (ECMA-262, Number::toString, radix 10) *)

Definition digits (z : Z) : string := NilZero.string_of_int (Z.to_int z).

Definition parse_digits (s : string) : option Z :=
  option_map Z.of_int (NilZero.int_of_string s).

(** Round a non-negative integer to the nearest value with a 53-bit
    significand, ties to even: the real-to-double map on integers. *)
Definition roundDouble (z : Z) : Z :=
  let b := Z.log2 z in
  if b <=? 52 then z
  else
    let sh := b - 52 in
    let q := Z.shiftr z sh in
    let r := Z.land z (Z.ones sh) in
    let half := Z.shiftl 1 (sh - 1) in
    let q' := if (half <? r) || ((r =? half) && Z.odd q) then q + 1 else q in
    Z.shiftl q' sh.

(** Doubles overflow to Infinity from 2^1024. *)
Definition overflows (x : Z) : bool := 2 ^ 1024 <=? x.

Fixpoint count_digits (fuel : nat) (x : Z) : Z :=
  match fuel with
  | O => 0
  | S f => if x <? 10 then 1 else 1 + count_digits f (x / 10)
  end.

Definition num_digits (x : Z) : Z := count_digits (Z.to_nat (Z.log2 x) + 1) x.

(** Candidate [(s, n)] with [s] of [k] digits and [s * 10^(n-k)] rounding
    to [x]; the one closer to [x] first, the even one on a tie. *)
Definition candidates (x k n : Z) : list (Z * Z) :=
  if n <? k then []
  else
    let p := 10 ^ (n - k) in
    let lo := x / p in
    let ok s := (10 ^ (k - 1) <=? s) && (s <? 10 ^ k) && (roundDouble (s * p) =? x) in
    let below := x - lo * p in
    let above := (lo + 1) * p - x in
    let near :=
      if (below <? above) || ((below =? above) && Z.even lo)
      then [lo; lo + 1] else [lo + 1; lo] in
    map (fun s => (s, n)) (filter ok near).

(** Smallest [k], with its [s] and [n], of Number::toString step 5. *)
Fixpoint shortest (fuel : nat) (x k : Z) : option (Z * Z * Z) :=
  match fuel with
  | O => None
  | S f =>
      let d := num_digits x in
      match (candidates x k d ++ candidates x k (d + 1))%list with
      | (s, n) :: _ => Some (s, k, n)
      | [] => shortest f x (k + 1)
      end
  end.

Definition zeros (n : Z) : string :=
  String.concat "" (repeat "0" (Z.to_nat n)).

(** Number::toString for the Number nearest to integer [z]. *)
Definition number_toString (z : Z) : string :=
  let x := roundDouble (Z.abs z) in
  let sign := if z <? 0 then "-" else "" in
  if x =? 0 then "0"
  else if overflows x then sign ++ "Infinity"
  else
    match shortest 17 x 1 with
    | None => sign ++ digits x
    | Some (s, k, n) =>
        if n <=? 21 then sign ++ digits s ++ zeros (n - k)
        else
          let ds := digits s in
          let e := digits (n - 1) in
          if k =? 1 then sign ++ ds ++ "e+" ++ e
          else sign ++ substring 0 1 ds ++ "." ++ substring 1 (Z.to_nat k - 1) ds
                    ++ "e+" ++ e
    end.


(** [String(v)] (ToString).  Plain objects print through
    [Object.prototype.toString]; arrays join their elements with a comma,
    [undefined] and [null] elements printing as the empty string. *)
Fixpoint js_String (v : Value) : string :=
  match v with
  | VUndefined => "undefined"
  | VNull => "null"
  | VBool b => if b then "true" else "false"
  | VNum z => number_toString z
  | VNaN => "NaN"
  | VBigInt z => digits z
  | VStr s => s
  | VArr elems =>
      String.concat ","
        (map (fun e => match e with
                       | VUndefined | VNull => ""
                       | _ => js_String e
                       end) elems)
  | VObj _ => "[object Object]"
  end.

(** The host's [Intl.NumberFormat('fullwide', { useGrouping: false })]:
    how it prints a Number or a BigInt.  ECMA-402 leaves the digits to the
    host and its default locale, so it is a parameter of the adapters that
    call [toLocaleString]. *)
Definition NumberFormat : Type := Value -> string.

(** [v.toLocaleString('fullwide', { useGrouping: false })].  Numbers and
    BigInts go through the host formatter; booleans, strings and plain
    objects inherit [Object.prototype.toLocaleString], which returns
    [this.toString()]; arrays join their elements' [toLocaleString]. *)
Fixpoint toLocaleString (fmt : NumberFormat) (v : Value) : Outcome string :=
  match v with
  | VUndefined | VNull => Thrown TypeError
  | VNum _ | VNaN | VBigInt _ => Returned (fmt v)
  | VArr elems =>
      Returned
        (String.concat ","
           (map (fun e => match toLocaleString fmt e with
                          | Returned s => s
                          | Thrown _ => ""
                          end) elems))
  | VBool _ | VStr _ | VObj _ => Returned (js_String v)
  end.

(** A host formatter printing every digit of the value it is given. *)
Definition plainFormat : NumberFormat :=
  fun v => match v with
           | VNum z => digits (Z.sgn z * roundDouble (Z.abs z))
           | VBigInt z => digits z
           | _ => js_String v
           end.

(* ------------------------------------------------------------------ *)
(** ** Effects: state, exceptions and the trace of outgoing calls *)

Definition M (S A : Type) : Type := S -> Outcome A * S.

Definition ret {S A} (a : A) : M S A := fun s => (Returned a, s).

Definition throw {S A} (e : Exn) : M S A := fun s => (Thrown e, s).

Definition bind {S A B} (m : M S A) (k : A -> M S B) : M S B :=
  fun s => match m s with
           | (Returned a, s') => k a s'
           | (Thrown e, s') => (Thrown e, s')
           end.

(** A pure computation that may throw. *)
Definition lift {S A} (o : Outcome A) : M S A := fun s => (o, s).

(** [try { m } catch (e) { h e }]: effects of [m] before the throw stay. *)
Definition try_catch {S A} (m : M S A) (h : Exn -> M S A) : M S A :=
  fun s => match m s with
           | (Returned a, s') => (Returned a, s')
           | (Thrown e, s') => h e s'
           end.

Declare Scope js_scope.
Delimit Scope js_scope with js.
Notation "x <- c ;; k" := (bind c (fun x => k))
  (at level 61, c at next level, right associativity) : js_scope.
Notation "c ;;; k" := (bind c (fun _ => k))
  (at level 61, right associativity) : js_scope.

(** Pure bind on outcomes, for chains of property reads. *)
Definition obind {A B} (o : Outcome A) (k : A -> Outcome B) : Outcome B :=
  match o with
  | Returned a => k a
  | Thrown e => Thrown e
  end.

(** [v.k1.k2...kn]. *)
Fixpoint getPath (v : Value) (path : list string) : Outcome Value :=
  match path with
  | [] => Returned v
  | k :: rest => obind (getProp v k) (fun v' => getPath v' rest)
  end.

(** [v?.k1?.k2...?.kn]. *)
Fixpoint optPath (v : Value) (path : list string) : Value :=
  match path with
  | [] => v
  | k :: rest => optPath (optProp v k) rest
  end.

(** Calls that leave the SDK, in the order they are made, each with what
    it answered: the id of the handle created, the receipt, the response,
    or the value thrown. *)
Inductive Event : Type :=
| EvCreate (address : string) (abi : list string) (created : Outcome nat)
| EvCall (handle : nat) (function : string) (args : list Value)
         (result : Outcome Value)
| EvApiGet (uri : string) (params : Value) (response : Outcome Value).

Definition Trace : Type := list Event.

(** The contract-call backend: a handle answers [call({function, args})],
    the factory answers [create({address, abi})]; either may throw, and
    the answer may depend on everything that happened before.  A handle is
    an object, so it is truthy. *)
Record ContractHandle : Type := {
  handle_id : nat;
  handle_call : Trace -> string -> list Value -> Outcome Value
}.

Record ContractFactory : Type := {
  factory_create : Trace -> string -> list string -> Outcome ContractHandle
}.

Definition created_id (o : Outcome ContractHandle) : Outcome nat :=
  match o with
  | Returned h => Returned (handle_id h)
  | Thrown e => Thrown e
  end.

Definition create (f : ContractFactory) (address : string) (abi : list string)
  : M Trace ContractHandle :=
  fun tr =>
    let o := factory_create f tr address abi in
    (o, (tr ++ [EvCreate address abi (created_id o)])%list).

Definition call (h : ContractHandle) (function : string) (args : list Value)
  : M Trace Value :=
  fun tr =>
    let o := handle_call h tr function args in
    (o, (tr ++ [EvCall (handle_id h) function args o])%list).

(* ------------------------------------------------------------------ *)
(** ** The Network Parameter Table ([config.js]) *)

Module Config.

(** [config.loan.fixed.<version>]. *)
Record Contract : Type := {
  name : string;
  address : string;
  abi : list string
}.

Record t : Type := {
  loan_fixed_v1 : Contract;
  loan_fixed_v2 : Contract;
  loan_fixed_v2_1 : Contract;
  loan_fixed_v2_3 : Contract;
  loan_fixed_collection_v2 : Contract;
  loan_fixed_collection_v2_3 : Contract;
  pagination_limit : Value;
  pagination_page : Value
}.

Definition v2_abi : list string := [
  "function cancelLoanCommitmentBeforeLoanHasBegun(uint256 nonce)";
  "function liquidateOverdueLoan(uint32 _loanId) nonpayable returns()";
  "function payBackLoan(uint32 _loanId)";
  "function acceptOffer(tuple(uint256 loanPrincipalAmount, uint256 maximumRepaymentAmount, uint256 nftCollateralId, address nftCollateralContract, uint32 loanDuration, uint16 loanAdminFeeInBasisPoints, address loanERC20Denomination, address referrer) _offer, tuple(uint256 nonce, uint256 expiry, address signer, bytes signature) _signature, tuple(address revenueSharePartner, uint16 referralFeeInBasisPoints) _borrowerSettings)";
  "function getWhetherNonceHasBeenUsedForUser(address _user, uint256 _nonce) view returns (bool)";
  "event LoanStarted(uint32 indexed loanId, address indexed borrower, address indexed lender, tuple(uint256 loanPrincipalAmount, uint256 maximumRepaymentAmount, uint256 nftCollateralId, address loanERC20Denomination, uint32 loanDuration, uint16 loanInterestRateForDurationInBasisPoints, uint16 loanAdminFeeInBasisPoints, address nftCollateralWrapper, uint64 loanStartTime, address nftCollateralContract, address borrower) loanTerms, tuple(address revenueSharePartner, uint16 revenueShareInBasisPoints, uint16 referralFeeInBasisPoints) loanExtras)"
].

Definition v1_abi : list string := [
  "function cancelLoanCommitmentBeforeLoanHasBegun(uint256 nonce)";
  "function liquidateOverdueLoan(uint256 _loanId) nonpayable returns()";
  "function payBackLoan(uint256 _loanId)"
].

Definition collection_v2_3_abi : list string := [
  "function cancelLoanCommitmentBeforeLoanHasBegun(uint256 _nonce)";
  "function liquidateOverdueLoan(uint32 _loanId)";
  "function payBackLoan(uint32 _loanId)";
  "function acceptCollectionOffer(tuple(uint256 loanPrincipalAmount, uint256 maximumRepaymentAmount, uint256 nftCollateralId, address nftCollateralContract, uint32 loanDuration, uint16 loanAdminFeeInBasisPoints, address loanERC20Denomination, address referrer) _offer, tuple(uint256 nonce, uint256 expiry, address signer, bytes signature) _signature, tuple(address revenueSharePartner, uint16 referralFeeInBasisPoints) _borrowerSettings)";
  "function acceptOffer(tuple(uint256 loanPrincipalAmount, uint256 maximumRepaymentAmount, uint256 nftCollateralId, address nftCollateralContract, uint32 loanDuration, uint16 loanAdminFeeInBasisPoints, address loanERC20Denomination, address referrer), tuple(uint256 nonce, uint256 expiry, address signer, bytes signature), tuple(address revenueSharePartner, uint16 referralFeeInBasisPoints)) returns (uint32)";
  "function getWhetherNonceHasBeenUsedForUser(address _user, uint256 _nonce) view returns (bool)";
  "event LoanStarted(uint32 indexed loanId, address indexed borrower, address indexed lender, tuple(uint256 loanPrincipalAmount, uint256 maximumRepaymentAmount, uint256 nftCollateralId, address loanERC20Denomination, uint32 loanDuration, uint16 loanInterestRateForDurationInBasisPoints, uint16 loanAdminFeeInBasisPoints, address nftCollateralWrapper, uint64 loanStartTime, address nftCollateralContract, address borrower) loanTerms, tuple(address revenueSharePartner, uint16 revenueShareInBasisPoints, uint16 referralFeeInBasisPoints) loanExtras)"
].

(** [mainnetConfig]: the loan contracts and the pagination defaults it
    inherits from [baseConfig]. *)
Definition mainnetConfig : t := {|
  loan_fixed_v1 :=
    {| name := "v1.loan.fixed";
       address := "0x88341d1a8F672D2780C8dC725902AAe72F143B0c";
       abi := v1_abi |};
  loan_fixed_v2 :=
    {| name := "v2.loan.fixed";
       address := "0xf896527c49b44aAb3Cf22aE356Fa3AF8E331F280";
       abi := v2_abi |};
  loan_fixed_v2_1 :=
    {| name := "v2-1.loan.fixed";
       address := "0x8252Df1d8b29057d1Afe3062bf5a64D503152BC8";
       abi := v2_abi |};
  loan_fixed_v2_3 :=
    {| name := "v2-3.loan.fixed";
       address := "0xd0a40eB7FD94eE97102BA8e9342243A2b2E22207";
       abi := v2_abi |};
  loan_fixed_collection_v2 :=
    {| name := "v2.loan.fixed.collection";
       address := "0xE52Cec0E90115AbeB3304BaA36bc2655731f7934";
       abi := v2_abi |};
  loan_fixed_collection_v2_3 :=
    {| name := "v2-3.loan.fixed.collection";
       address := "0xD0C6e59B50C32530C627107F50Acc71958C4341F";
       abi := collection_v2_3_abi |};
  pagination_limit := VNum 20;
  pagination_page := VNum 1
|}.

(** The contract-version names the table registers under [loan.fixed]. *)
Definition registered_names (c : t) : list string :=
  [ name (loan_fixed_v1 c); name (loan_fixed_v2 c); name (loan_fixed_v2_1 c);
    name (loan_fixed_v2_3 c); name (loan_fixed_collection_v2 c);
    name (loan_fixed_collection_v2_3 c) ].

End Config.

(** Is [n] one of the six registered contract-version names? *)
Definition registered (n : string) : bool :=
  existsb (String.eqb n) (Config.registered_names Config.mainnetConfig).

(* ------------------------------------------------------------------ *)
(** ** Shapes shared by the three adapter classes *)

Definition zero_address : string := "0x0000000000000000000000000000000000000000".

(** [{ receipt: result, status: result?.status === 1 }]. *)
Definition action_result (result : Value) : Value :=
  VObj [("receipt", result);
        ("status", VBool (strict_eq_1 (optProp result "status")))].

(** [{ receipt: null, status: false }]. *)
Definition negative_result : Value :=
  VObj [("receipt", VNull); ("status", VBool false)].

Notation "'let!' x ':=' o 'in' k" := (obind o (fun x => k))
  (at level 10, x name, o at level 100, k at level 200).

(** The [offer], [signature] and [borrowerSettings] literals of
    [acceptOffer]; [serialize] is how the class prints the two amounts. *)
Definition offer_args (serialize : Value -> Outcome string) (options : Value)
  : Outcome (list Value) :=
  let! currency := getPath options ["offer"; "terms"; "loan"; "currency"] in
  let! principal := getPath options ["offer"; "terms"; "loan"; "principal"] in
  let! loanPrincipalAmount := serialize principal in
  let! repayment := getPath options ["offer"; "terms"; "loan"; "repayment"] in
  let! maximumRepaymentAmount := serialize repayment in
  let! nftAddress := getPath options ["offer"; "nft"; "address"] in
  let! nftId := getPath options ["offer"; "nft"; "id"] in
  let! duration := getPath options ["offer"; "terms"; "loan"; "duration"] in
  let! bps := getPath options ["offer"; "nftfi"; "fee"; "bps"] in
  let offer := VObj [
    ("loanERC20Denomination", currency);
    ("loanPrincipalAmount", VStr loanPrincipalAmount);
    ("maximumRepaymentAmount", VStr maximumRepaymentAmount);
    ("nftCollateralContract", nftAddress);
    ("nftCollateralId", nftId);
    ("referrer", VStr zero_address);
    ("loanDuration", duration);
    ("loanAdminFeeInBasisPoints", bps)] in
  let! signer := getPath options ["offer"; "lender"; "address"] in
  let! nonce := getPath options ["offer"; "lender"; "nonce"] in
  let! expiry := getPath options ["offer"; "terms"; "loan"; "expiry"] in
  let! sig := getPath options ["offer"; "signature"] in
  let signature := VObj [
    ("signer", signer); ("nonce", nonce); ("expiry", expiry); ("signature", sig)] in
  let borrowerSettings := VObj [
    ("revenueSharePartner", VStr zero_address);
    ("referralFeeInBasisPoints", VNum 0)] in
  Returned [offer; signature; borrowerSettings].

(** Constructor options of an adapter: [options?.config] and
    [options?.contractFactory] may each be missing. *)
Record AdapterOptions : Type := {
  opt_config : option Config.t;
  opt_contractFactory : option ContractFactory
}.

(** Run a trace computation inside a method of an object with state [T]. *)
Definition on_trace {T A} (m : M Trace A) : M (T * Trace) A :=
  fun '(self, tr) => let '(o, tr') := m tr in (o, (self, tr')).

Open Scope js_scope.

(* ------------------------------------------------------------------ *)
(** ** class LoansFixedV2_3 *)

Module LoansFixedV2_3.

(** The private fields [#config], [#contractFactory], [#contract]. *)
Record t : Type := {
  config : option Config.t;
  contractFactory : option ContractFactory;
  contract : option ContractHandle
}.

Definition constructor (options : option AdapterOptions) : M Trace t :=
  ret {| config := match options with Some o => opt_config o | None => None end;
         contractFactory :=
           match options with Some o => opt_contractFactory o | None => None end;
         contract := None |}.

(** [get _contract()]. *)
Definition _contract : M (t * Trace) ContractHandle :=
  fun '(self, tr) =>
    match contract self with
    | Some h => (Returned h, (self, tr))
    | None =>
        match contractFactory self, config self with
        | Some f, Some c =>
            match create f (Config.address (Config.loan_fixed_v2_3 c))
                           (Config.abi (Config.loan_fixed_v2_3 c)) tr with
            | (Returned h, tr') =>
                (Returned h,
                 ({| config := config self;
                     contractFactory := contractFactory self;
                     contract := Some h |}, tr'))
            | (Thrown e, tr') => (Thrown e, (self, tr'))
            end
        | _, _ => (Thrown TypeError, (self, tr))
        end
    end.

Section Host.
Variable fmt : NumberFormat.

Definition acceptOffer (options : Value) : M (t * Trace) Value :=
  try_catch
    (args <- lift (offer_args (toLocaleString fmt) options) ;;
     h <- _contract ;;
     result <- on_trace (call h "acceptOffer" args) ;;
     ret (action_result result))
    (fun _ => ret negative_result).
End Host.

Definition liquidateOverdueLoan (options : Value) : M (t * Trace) Value :=
  try_catch
    (h <- _contract ;;
     id <- lift (getPath options ["loan"; "id"]) ;;
     result <- on_trace (call h "liquidateOverdueLoan" [id]) ;;
     ret (VBool (strict_eq_1 (optProp result "status"))))
    (fun _ => ret (VBool false)).

Definition payBackLoan (options : Value) : M (t * Trace) Value :=
  try_catch
    (h <- _contract ;;
     id <- lift (getPath options ["loan"; "id"]) ;;
     result <- on_trace (call h "payBackLoan" [id]) ;;
     ret (action_result result))
    (fun _ => ret negative_result).

Definition cancelLoanCommitmentBeforeLoanHasBegun (options : Value)
  : M (t * Trace) Value :=
  try_catch
    (h <- _contract ;;
     nonce <- lift (getPath options ["offer"; "nonce"]) ;;
     result <- on_trace (call h "cancelLoanCommitmentBeforeLoanHasBegun" [nonce]) ;;
     ret (VBool (strict_eq_1 (optProp result "status"))))
    (fun _ => ret (VBool false)).

End LoansFixedV2_3.

(* ------------------------------------------------------------------ *)
(** ** class LoansFixedV2_1 *)

Module LoansFixedV2_1.

(** [#contract] is assigned by the constructor and never again. *)
Record t : Type := {
  config : option Config.t;
  contractFactory : option ContractFactory;
  contract : ContractHandle
}.

Definition constructor (options : option AdapterOptions) : M Trace t :=
  let config := match options with Some o => opt_config o | None => None end in
  let contractFactory :=
    match options with Some o => opt_contractFactory o | None => None end in
  match contractFactory, config with
  | Some f, Some c =>
      h <- create f (Config.address (Config.loan_fixed_v2_1 c))
                    (Config.abi (Config.loan_fixed_v2_1 c)) ;;
      ret {| config := config; contractFactory := contractFactory; contract := h |}
  | _, _ => throw TypeError
  end.

Section Host.
Variable fmt : NumberFormat.

Definition acceptOffer (options : Value) : M (t * Trace) Value :=
  try_catch
    (args <- lift (offer_args (toLocaleString fmt) options) ;;
     result <- (fun '(self, tr) =>
                  on_trace (call (contract self) "acceptOffer" args) (self, tr)) ;;
     ret (action_result result))
    (fun _ => ret negative_result).
End Host.

Definition liquidateOverdueLoan (options : Value) : M (t * Trace) Value :=
  try_catch
    (id <- lift (getPath options ["loan"; "id"]) ;;
     result <- (fun '(self, tr) =>
                  on_trace (call (contract self) "liquidateOverdueLoan" [id])
                           (self, tr)) ;;
     ret (VBool (if strict_eq_1 (optProp result "status") then true else false)))
    (fun _ => ret (VBool false)).

Definition payBackLoan (options : Value) : M (t * Trace) Value :=
  try_catch
    (id <- lift (getPath options ["loan"; "id"]) ;;
     result <- (fun '(self, tr) =>
                  on_trace (call (contract self) "payBackLoan" [id]) (self, tr)) ;;
     ret (action_result result))
    (fun _ => ret negative_result).

Definition cancelLoanCommitmentBeforeLoanHasBegun (options : Value)
  : M (t * Trace) Value :=
  try_catch
    (nonce <- lift (getPath options ["offer"; "nonce"]) ;;
     result <- (fun '(self, tr) =>
                  on_trace (call (contract self)
                              "cancelLoanCommitmentBeforeLoanHasBegun" [nonce])
                           (self, tr)) ;;
     ret (VBool (if strict_eq_1 (optProp result "status") then true else false)))
    (fun _ => ret (VBool false)).

End LoansFixedV2_1.

(* ------------------------------------------------------------------ *)
(** ** class LoansFixedCollectionV2_3 *)

Module LoansFixedCollectionV2_3.

Record t : Type := {
  config : option Config.t;
  contractFactory : option ContractFactory;
  contract : option ContractHandle
}.

Definition constructor (options : option AdapterOptions) : M Trace t :=
  ret {| config := match options with Some o => opt_config o | None => None end;
         contractFactory :=
           match options with Some o => opt_contractFactory o | None => None end;
         contract := None |}.

(** [get _contract()]. *)
Definition _contract : M (t * Trace) ContractHandle :=
  fun '(self, tr) =>
    match contract self with
    | Some h => (Returned h, (self, tr))
    | None =>
        match contractFactory self, config self with
        | Some f, Some c =>
            match create f (Config.address (Config.loan_fixed_collection_v2_3 c))
                           (Config.abi (Config.loan_fixed_collection_v2_3 c)) tr with
            | (Returned h, tr') =>
                (Returned h,
                 ({| config := config self;
                     contractFactory := contractFactory self;
                     contract := Some h |}, tr'))
            | (Thrown e, tr') => (Thrown e, (self, tr'))
            end
        | _, _ => (Thrown TypeError, (self, tr))
        end
    end.

(** The amounts are printed with [String(..)]. *)
Definition acceptOffer (options : Value) : M (t * Trace) Value :=
  try_catch
    (args <- lift (offer_args (fun v => Returned (js_String v)) options) ;;
     h <- _contract ;;
     result <- on_trace (call h "acceptCollectionOffer" args) ;;
     ret (action_result result))
    (fun _ => ret negative_result).

Definition liquidateOverdueLoan (options : Value) : M (t * Trace) Value :=
  try_catch
    (h <- _contract ;;
     id <- lift (getPath options ["loan"; "id"]) ;;
     result <- on_trace (call h "liquidateOverdueLoan" [id]) ;;
     ret (VBool (strict_eq_1 (optProp result "status"))))
    (fun _ => ret (VBool false)).

Definition payBackLoan (options : Value) : M (t * Trace) Value :=
  try_catch
    (h <- _contract ;;
     id <- lift (getPath options ["loan"; "id"]) ;;
     result <- on_trace (call h "payBackLoan" [id]) ;;
     ret (action_result result))
    (fun _ => ret negative_result).

Definition cancelLoanCommitmentBeforeLoanHasBegun (options : Value)
  : M (t * Trace) Value :=
  try_catch
    (h <- _contract ;;
     nonce <- lift (getPath options ["offer"; "nonce"]) ;;
     result <- on_trace (call h "cancelLoanCommitmentBeforeLoanHasBegun" [nonce]) ;;
     ret (VBool (strict_eq_1 (optProp result "status"))))
    (fun _ => ret (VBool false)).

End LoansFixedCollectionV2_3.

(* ------------------------------------------------------------------ *)
(** ** Injected collaborators of [Loans] and [Listings] *)

(** The REST client: [get({ uri, params })]. *)
Record ApiClient : Type := {
  api_answer : Trace -> string -> Value -> Outcome Value
}.

Definition api_get (c : ApiClient) (uri : string) (params : Value) : M Trace Value :=
  fun tr =>
    let o := api_answer c tr uri params in
    (o, (tr ++ [EvApiGet uri params o])%list).

(** [hasSigner()] and [hasAddress()] return, or throw an assertion error. *)
Record Assertion : Type := {
  hasSigner : Outcome unit;
  hasAddress : Outcome unit
}.

Record Account : Type := { getAddress : Outcome Value }.

Record Helper : Type := { addCurrencyUnit : Value -> Value }.

(** [error.handle(e)]: the structured error returned to the caller. *)
Record ErrorHandler : Type := { handle : Exn -> Value }.

(** [switch (v) { case label: body ... default: body }] with string labels,
    compared by [===] in source order. *)
Definition case_is (v : Value) (label : string) : bool :=
  match v with
  | VStr s => (s =? label)%string
  | _ => false
  end.

Fixpoint switch {A} (v : Value) (cases : list (string * A)) (default : A) : A :=
  match cases with
  | [] => default
  | (label, body) :: rest => if case_is v label then body else switch v rest default
  end.

(** [results.map(f)]: a TypeError unless [results] is an array. *)
Definition js_map (f : Value -> Value) (results : Value) : Outcome Value :=
  match results with
  | VArr l => Returned (VArr (map f l))
  | _ => Thrown TypeError
  end.

(** The adapters held in [fixed], and the four methods of each. *)
Inductive AdapterName : Type :=
| V1 | V2 | V2_1 | V2_3 | CollectionV2 | CollectionV2_3.

Inductive Method : Type :=
| AcceptOffer
| LiquidateOverdueLoan
| PayBackLoan
| CancelLoanCommitmentBeforeLoanHasBegun.

(** An adapter object as the router sees it: four async methods acting on
    the adapters' private state [H] and on the trace. *)
Record Adapter (H : Type) : Type := {
  acceptOffer : Value -> M (H * Trace) Value;
  liquidateOverdueLoan : Value -> M (H * Trace) Value;
  payBackLoan : Value -> M (H * Trace) Value;
  cancelLoanCommitmentBeforeLoanHasBegun : Value -> M (H * Trace) Value
}.
Arguments acceptOffer {H} _ _ _.
Arguments liquidateOverdueLoan {H} _ _ _.
Arguments payBackLoan {H} _ _ _.
Arguments cancelLoanCommitmentBeforeLoanHasBegun {H} _ _ _.

(** [fixed.v1], [fixed.v2], [fixed.v2_1], [fixed.v2_3],
    [fixed.collection.v2], [fixed.collection.v2_3]. *)
Record Fixed (H : Type) : Type := {
  v1 : Adapter H;
  v2 : Adapter H;
  v2_1 : Adapter H;
  v2_3 : Adapter H;
  collection_v2 : Adapter H;
  collection_v2_3 : Adapter H
}.
Arguments v1 {H} _.
Arguments v2 {H} _.
Arguments v2_1 {H} _.
Arguments v2_3 {H} _.
Arguments collection_v2 {H} _.
Arguments collection_v2_3 {H} _.

Definition adapter {H} (f : Fixed H) (a : AdapterName) : Adapter H :=
  match a with
  | V1 => v1 f
  | V2 => v2 f
  | V2_1 => v2_1 f
  | V2_3 => v2_3 f
  | CollectionV2 => collection_v2 f
  | CollectionV2_3 => collection_v2_3 f
  end.

Definition method {H} (a : Adapter H) (m : Method) : Value -> M (H * Trace) Value :=
  match m with
  | AcceptOffer => acceptOffer a
  | LiquidateOverdueLoan => liquidateOverdueLoan a
  | PayBackLoan => payBackLoan a
  | CancelLoanCommitmentBeforeLoanHasBegun => cancelLoanCommitmentBeforeLoanHasBegun a
  end.

(* ------------------------------------------------------------------ *)
(** ** class Loans *)

Module Loans.

(** One entry per adapter method the router enters, with its argument. *)
Definition Invocation : Type := (AdapterName * Method * Value)%type.

Section Router.
Context {H : Type}.

(** What a router call can change: the log of adapter methods entered,
    the adapters' private state, the trace of outgoing calls. *)
Record State : Type := {
  invoked : list Invocation;
  heap : H;
  trace : Trace
}.

(** The private fields of the class ([#config] is never read). *)
Record t : Type := {
  api : ApiClient;
  account : Account;
  fixed : Fixed H;
  helper : Helper;
  assertion : Assertion;
  error : ErrorHandler
}.

Variable this : t.

(** [await this.#fixed.<a>.<m>(arg)]. *)
Definition invoke (a : AdapterName) (m : Method) (arg : Value) : M State Value :=
  fun st =>
    let '(o, (h, tr)) := method (adapter (fixed this) a) m arg (heap st, trace st) in
    (o, {| invoked := (invoked st ++ [(a, m, arg)])%list; heap := h; trace := tr |}).

Definition on_api {A} (m : M Trace A) : M State A :=
  fun st =>
    let '(o, tr) := m (trace st) in
    (o, {| invoked := invoked st; heap := heap st; trace := tr |}).

Definition get (options : Value) : M State Value :=
  try_catch
    (lift (hasAddress (assertion this)) ;;;
     accountAddress <- lift (getAddress (account this)) ;;
     counterparty <- lift (getPath options ["filters"; "counterparty"]) ;;
     status <- lift (getPath options ["filters"; "status"]) ;;
     response <- on_api (api_get (api this) "v0.1/loans"
                   (VObj [("accountAddress", accountAddress);
                          ("counterparty", counterparty);
                          ("status", status)])) ;;
     loans <- lift (getProp response "results") ;;
     lift (js_map (addCurrencyUnit (helper this)) loans))
    (fun e => ret (handle (error this) e)).

Definition begin (options : Value) : M State Value :=
  try_catch
    (lift (hasSigner (assertion this)) ;;;
     contractName <- lift (getPath options ["offer"; "nftfi"; "contract"; "name"]) ;;
     switch contractName
       [ ("v2-1.loan.fixed", invoke V2_1 AcceptOffer options);
         ("v2-3.loan.fixed", invoke V2_3 AcceptOffer options);
         ("v2.loan.fixed.collection", invoke CollectionV2 AcceptOffer options);
         ("v2-3.loan.fixed.collection", invoke CollectionV2_3 AcceptOffer options) ]
       (ret (VObj [("errors",
                    VObj [("nftfi.contract.name",
                           VArr [VStr (js_String contractName ++ " not supported")])])])))
    (fun e => ret (handle (error this) e)).

(** [this.#fixed.<a>.liquidateOverdueLoan({ loan: { id: options.loan.id } })]
    and its siblings for the other verbs. *)
Definition with_loan_id (options : Value) (a : AdapterName) (m : Method)
  : M State Value :=
  id <- lift (getPath options ["loan"; "id"]) ;;
  invoke a m (VObj [("loan", VObj [("id", id)])]).

Definition with_offer_nonce (options : Value) (a : AdapterName) (m : Method)
  : M State Value :=
  nonce <- lift (getPath options ["offer"; "nonce"]) ;;
  invoke a m (VObj [("offer", VObj [("nonce", nonce)])]).

Definition liquidate (options : Value) : M State Value :=
  try_catch
    (lift (hasSigner (assertion this)) ;;;
     contractName <- lift (getPath options ["nftfi"; "contract"; "name"]) ;;
     success <-
       switch contractName
         [ ("v1.loan.fixed", with_loan_id options V1 LiquidateOverdueLoan);
           ("v2.loan.fixed", with_loan_id options V2 LiquidateOverdueLoan);
           ("v2.loan.fixed.collection",
            with_loan_id options CollectionV2 LiquidateOverdueLoan);
           ("v2-3.loan.fixed.collection",
            with_loan_id options CollectionV2_3 LiquidateOverdueLoan);
           ("v2-1.loan.fixed", with_loan_id options V2_1 LiquidateOverdueLoan);
           ("v2-3.loan.fixed", with_loan_id options V2_3 LiquidateOverdueLoan) ]
         (ret (VBool false)) ;;
     ret (VObj [("success", success)]))
    (fun e => ret (handle (error this) e)).

Definition repay (options : Value) : M State Value :=
  try_catch
    (lift (hasSigner (assertion this)) ;;;
     contractName <- lift (getPath options ["nftfi"; "contract"; "name"]) ;;
     switch contractName
       [ ("v1.loan.fixed", with_loan_id options V1 PayBackLoan);
         ("v2.loan.fixed", with_loan_id options V2 PayBackLoan);
         ("v2-1.loan.fixed", with_loan_id options V2_1 PayBackLoan);
         ("v2-3.loan.fixed", with_loan_id options V2_3 PayBackLoan);
         ("v2.loan.fixed.collection", with_loan_id options CollectionV2 PayBackLoan);
         ("v2-3.loan.fixed.collection",
          with_loan_id options CollectionV2_3 PayBackLoan) ]
       (ret VUndefined))
    (fun e => ret (handle (error this) e)).

Definition revokeOffer (options : Value) : M State Value :=
  try_catch
    (lift (hasSigner (assertion this)) ;;;
     contractName <- lift (getPath options ["nftfi"; "contract"; "name"]) ;;
     success <-
       switch contractName
         [ ("v1.loan.fixed",
            with_offer_nonce options V1 CancelLoanCommitmentBeforeLoanHasBegun);
           ("v2.loan.fixed",
            with_offer_nonce options V2 CancelLoanCommitmentBeforeLoanHasBegun);
           ("v2-1.loan.fixed",
            with_offer_nonce options V2_1 CancelLoanCommitmentBeforeLoanHasBegun);
           ("v2-3.loan.fixed",
            with_offer_nonce options V2_3 CancelLoanCommitmentBeforeLoanHasBegun);
           ("v2.loan.fixed.collection",
            with_offer_nonce options CollectionV2
              CancelLoanCommitmentBeforeLoanHasBegun);
           ("v2-3.loan.fixed.collection",
            with_offer_nonce options CollectionV2_3
              CancelLoanCommitmentBeforeLoanHasBegun) ]
         (ret (VBool false)) ;;
     ret (VObj [("success", success)]))
    (fun e => ret (handle (error this) e)).

End Router.
Arguments State H : clear implicits.
Arguments t H : clear implicits.

End Loans.

(* ------------------------------------------------------------------ *)
(** ** class Listings *)

Module Listings.

Record t : Type := {
  api : ApiClient;
  config : Config.t;
  helper : Helper;
  error : ErrorHandler
}.

(** [nftAddresses.join()]: arrays join with a comma; nothing else that is
    truthy has a [join] method. *)
Definition join (nftAddresses : Value) : Outcome string :=
  match nftAddresses with
  | VArr _ => Returned (js_String nftAddresses)
  | _ => Thrown TypeError
  end.

(** The [params] object of the request; [options] after the default
    [= {}] has replaced [undefined]. *)
Definition params (this : t) (options : Value) : Outcome Value :=
  let limit := js_or (optPath options ["pagination"; "limit"])
                     (Config.pagination_limit (config this)) in
  let page := js_or (optPath options ["pagination"; "page"])
                    (Config.pagination_page (config this)) in
  let nftAddresses := js_or (optPath options ["filters"; "nftAddresses"]) (VArr []) in
  let! joined := join nftAddresses in
  Returned (VObj [("nftAddresses", VStr joined); ("page", page); ("limit", limit)]).

Definition get (this : t) (options : Value) : M Trace Value :=
  let options := match options with VUndefined => VObj [] | _ => options end in
  try_catch
    (p <- lift (params this options) ;;
     response <- api_get (api this) "v0.1/listings" p ;;
     listings <- lift (getProp response "results") ;;
     lift (js_map (addCurrencyUnit (helper this)) listings))
    (fun e => ret (handle (error this) e)).

End Listings.

(* ------------------------------------------------------------------ *)
(** ** Adapter objects and method calls on them *)

(** An instance of one of the three adapter classes. *)
Inductive AdapterObject : Type :=
| ObjV2_1 (o : LoansFixedV2_1.t)
| ObjV2_3 (o : LoansFixedV2_3.t)
| ObjCollectionV2_3 (o : LoansFixedCollectionV2_3.t).

(** The three constructors. *)
Inductive AdapterClass : Type :=
| ClassV2_1 | ClassV2_3 | ClassCollectionV2_3.

Definition class_of (obj : AdapterObject) : AdapterClass :=
  match obj with
  | ObjV2_1 _ => ClassV2_1
  | ObjV2_3 _ => ClassV2_3
  | ObjCollectionV2_3 _ => ClassCollectionV2_3
  end.

(** [new C(options)]. *)
Definition new (c : AdapterClass) (options : option AdapterOptions)
  : M Trace AdapterObject :=
  match c with
  | ClassV2_1 => o <- LoansFixedV2_1.constructor options ;; ret (ObjV2_1 o)
  | ClassV2_3 => o <- LoansFixedV2_3.constructor options ;; ret (ObjV2_3 o)
  | ClassCollectionV2_3 =>
      o <- LoansFixedCollectionV2_3.constructor options ;; ret (ObjCollectionV2_3 o)
  end.

(** Run a method of class state [T] on the object that wraps it. *)
Definition within {T A} (wrap : T -> AdapterObject) (o : T) (m : M (T * Trace) A)
  : Trace -> Outcome A * (AdapterObject * Trace) :=
  fun tr => let '(r, (o', tr')) := m (o, tr) in (r, (wrap o', tr')).

Section Host.
Variable fmt : NumberFormat.

(** [await obj.m(options)]: dispatch on the class of [obj]. *)
Definition send (m : Method) (options : Value) : M (AdapterObject * Trace) Value :=
  fun '(obj, tr) =>
    match obj with
    | ObjV2_1 o =>
        within ObjV2_1 o
          (match m with
           | AcceptOffer => LoansFixedV2_1.acceptOffer fmt options
           | LiquidateOverdueLoan => LoansFixedV2_1.liquidateOverdueLoan options
           | PayBackLoan => LoansFixedV2_1.payBackLoan options
           | CancelLoanCommitmentBeforeLoanHasBegun =>
               LoansFixedV2_1.cancelLoanCommitmentBeforeLoanHasBegun options
           end) tr
    | ObjV2_3 o =>
        within ObjV2_3 o
          (match m with
           | AcceptOffer => LoansFixedV2_3.acceptOffer fmt options
           | LiquidateOverdueLoan => LoansFixedV2_3.liquidateOverdueLoan options
           | PayBackLoan => LoansFixedV2_3.payBackLoan options
           | CancelLoanCommitmentBeforeLoanHasBegun =>
               LoansFixedV2_3.cancelLoanCommitmentBeforeLoanHasBegun options
           end) tr
    | ObjCollectionV2_3 o =>
        within ObjCollectionV2_3 o
          (match m with
           | AcceptOffer => LoansFixedCollectionV2_3.acceptOffer options
           | LiquidateOverdueLoan =>
               LoansFixedCollectionV2_3.liquidateOverdueLoan options
           | PayBackLoan => LoansFixedCollectionV2_3.payBackLoan options
           | CancelLoanCommitmentBeforeLoanHasBegun =>
               LoansFixedCollectionV2_3.cancelLoanCommitmentBeforeLoanHasBegun options
           end) tr
    end.

(** A sequence of method calls on one object; the values returned, in
    order.  Stops at the first call that throws. *)
Fixpoint session (calls : list (Method * Value))
  : M (AdapterObject * Trace) (list Value) :=
  match calls with
  | [] => ret []
  | (m, options) :: rest =>
      v <- send m options ;;
      vs <- session rest ;;
      ret (v :: vs)
  end.

(** The adapters the SDK wires into [Loans]: the three classes above,
    each at its own place in the heap of objects. *)
Record Heap : Type := {
  obj_v2_1 : AdapterObject;
  obj_v2_3 : AdapterObject;
  obj_collection_v2_3 : AdapterObject
}.

Definition at_object (get : Heap -> AdapterObject)
    (set : AdapterObject -> Heap -> Heap) (m : Method) (options : Value)
  : M (Heap * Trace) Value :=
  fun '(h, tr) =>
    let '(r, (obj', tr')) := send m options (get h, tr) in
    (r, (set obj' h, tr')).

Definition object_adapter (get : Heap -> AdapterObject)
    (set : AdapterObject -> Heap -> Heap) : Adapter Heap :=
  {| acceptOffer := at_object get set AcceptOffer;
     liquidateOverdueLoan := at_object get set LiquidateOverdueLoan;
     payBackLoan := at_object get set PayBackLoan;
     cancelLoanCommitmentBeforeLoanHasBegun :=
       at_object get set CancelLoanCommitmentBeforeLoanHasBegun |}.

(** [fixed] with the three classes of this development in place; the
    adapters of the other three versions are supplied by the caller. *)
Definition sdk_fixed (a_v1 a_v2 a_collection_v2 : Adapter Heap) : Fixed Heap :=
  {| v1 := a_v1;
     v2 := a_v2;
     v2_1 := object_adapter obj_v2_1
               (fun o h => {| obj_v2_1 := o; obj_v2_3 := obj_v2_3 h;
                              obj_collection_v2_3 := obj_collection_v2_3 h |});
     v2_3 := object_adapter obj_v2_3
               (fun o h => {| obj_v2_1 := obj_v2_1 h; obj_v2_3 := o;
                              obj_collection_v2_3 := obj_collection_v2_3 h |});
     collection_v2 := a_collection_v2;
     collection_v2_3 := object_adapter obj_collection_v2_3
               (fun o h => {| obj_v2_1 := obj_v2_1 h; obj_v2_3 := obj_v2_3 h;
                              obj_collection_v2_3 := o |}) |}.
End Host.

(* ------------------------------------------------------------------ *)
(** ** Test doubles and sample inputs *)

Module Fixtures.

(** A handle whose every call resolves with [{ status: 1 }]. *)
Definition okHandle (id : nat) : ContractHandle :=
  {| handle_id := id;
     handle_call := fun _ _ _ => Returned (VObj [("status", VNum 1)]) |}.

(** A handle whose every call resolves with [{ status: 0 }]. *)
Definition revertedHandle (id : nat) : ContractHandle :=
  {| handle_id := id;
     handle_call := fun _ _ _ => Returned (VObj [("status", VNum 0)]) |}.

(** A handle whose every call rejects. *)
Definition timeoutHandle (id : nat) : ContractHandle :=
  {| handle_id := id;
     handle_call := fun _ _ _ => Thrown (Fault (VStr "timeout")) |}.

Definition factoryOf (h : ContractHandle) : ContractFactory :=
  {| factory_create := fun _ _ _ => Returned h |}.

(** A factory that cannot reach its backend. *)
Definition downFactory : ContractFactory :=
  {| factory_create := fun _ _ _ => Thrown (Fault (VStr "network down")) |}.

Definition optionsOf (f : ContractFactory) : option AdapterOptions :=
  Some {| opt_config := Some Config.mainnetConfig; opt_contractFactory := Some f |}.

(** The offer of the [begin] example in [loans.js], with the given
    amounts and contract name. *)
Definition offer (principal repayment : Value) (contractName : string) : Value :=
  VObj [("offer", VObj [
    ("nft", VObj [("id", VStr "42"); ("address", VStr "0x00000000")]);
    ("lender", VObj [("address", VStr "0x00000000");
                     ("nonce", VStr "314159265359")]);
    ("terms", VObj [("loan", VObj [
       ("principal", principal);
       ("repayment", repayment);
       ("duration", VNum (86400 * 7));
       ("currency", VStr "0x00000000");
       ("expiry", VNum 1690548548)])]);
    ("signature", VStr "0x000000000000000000000000000000000000000000000000000");
    ("nftfi", VObj [("fee", VObj [("bps", VNum 500)]);
                    ("contract", VObj [("name", VStr contractName)])])])].

(** [{ loan: { id }, nftfi: { contract: { name } } }]. *)
Definition loanOptions (id : Value) (contractName : string) : Value :=
  VObj [("loan", VObj [("id", id)]);
        ("nftfi", VObj [("contract", VObj [("name", VStr contractName)])])].

(** [{ offer: { nonce }, nftfi: { contract: { name } } }]. *)
Definition revokeOptions (nonce : Value) (contractName : string) : Value :=
  VObj [("offer", VObj [("nonce", nonce)]);
        ("nftfi", VObj [("contract", VObj [("name", VStr contractName)])])].

(** An adapter of a version whose class is not part of this development:
    every method rejects. *)
Definition absentAdapter {H} : Adapter H :=
  {| acceptOffer := fun _ => throw TypeError;
     liquidateOverdueLoan := fun _ => throw TypeError;
     payBackLoan := fun _ => throw TypeError;
     cancelLoanCommitmentBeforeLoanHasBegun := fun _ => throw TypeError |}.

Definition signerPresent : Assertion :=
  {| hasSigner := Returned tt; hasAddress := Returned tt |}.

Definition signerMissing : Assertion :=
  {| hasSigner := Thrown (AssertionError "signer is required");
     hasAddress := Thrown (AssertionError "address is required") |}.

Definition errorHandler : ErrorHandler :=
  {| handle := fun e =>
       match e with
       | AssertionError msg => VObj [("error", VStr msg)]
       | TypeError => VObj [("error", VStr "TypeError")]
       | Fault v => VObj [("error", v)]
       end |}.

Definition emptyApi : ApiClient :=
  {| api_answer := fun _ _ _ => Returned (VObj [("results", VArr [])]) |}.

Definition loansOf (a : Assertion) (f : Fixed Heap) : Loans.t Heap :=
  {| Loans.api := emptyApi;
     Loans.account := {| getAddress := Returned (VStr "0x00000000") |};
     Loans.fixed := f;
     Loans.helper := {| addCurrencyUnit := fun v => v |};
     Loans.assertion := a;
     Loans.error := errorHandler |}.

(** The three adapters constructed against a backend whose handles are
    made by [mk]; handle ids 1, 2, 3. *)
Definition heapOf (mk : nat -> ContractHandle) : Heap :=
  {| obj_v2_1 :=
       ObjV2_1 {| LoansFixedV2_1.config := Some Config.mainnetConfig;
                  LoansFixedV2_1.contractFactory := Some (factoryOf (mk 1%nat));
                  LoansFixedV2_1.contract := mk 1%nat |};
     obj_v2_3 :=
       ObjV2_3 {| LoansFixedV2_3.config := Some Config.mainnetConfig;
                  LoansFixedV2_3.contractFactory := Some (factoryOf (mk 2%nat));
                  LoansFixedV2_3.contract := None |};
     obj_collection_v2_3 :=
       ObjCollectionV2_3
         {| LoansFixedCollectionV2_3.config := Some Config.mainnetConfig;
            LoansFixedCollectionV2_3.contractFactory := Some (factoryOf (mk 3%nat));
            LoansFixedCollectionV2_3.contract := None |} |}.

Definition stateOf (mk : nat -> ContractHandle) : Loans.State Heap :=
  {| Loans.invoked := []; Loans.heap := heapOf mk; Loans.trace := [] |}.

Definition sdk (a : Assertion) : Loans.t Heap :=
  loansOf a (sdk_fixed plainFormat absentAdapter absentAdapter absentAdapter).

(** The principal and repayment strings handed to the contract by the
    calls recorded in a trace. *)
Definition sent_amounts (tr : Trace) : list (Value * Value) :=
  flat_map (fun e => match e with
                     | EvCall _ _ (o :: _) _ =>
                         [(optProp o "loanPrincipalAmount",
                           optProp o "maximumRepaymentAmount")]
                     | _ => []
                     end) tr.

(** 1000 and 1100 units of an 18-decimals currency, as Numbers. *)
Definition thousand : Value := VNum (10 ^ 21).
Definition elevenHundred : Value := VNum (11 * 10 ^ 20).

Definition v2_1_object (h : ContractHandle) : AdapterObject :=
  ObjV2_1 {| LoansFixedV2_1.config := Some Config.mainnetConfig;
             LoansFixedV2_1.contractFactory := Some (factoryOf h);
             LoansFixedV2_1.contract := h |}.

End Fixtures.

(* ------------------------------------------------------------------ *)
(** ** Observations on traces and results *)

(** The handle an object currently holds in [#contract]. *)
Definition cached (obj : AdapterObject) : option ContractHandle :=
  match obj with
  | ObjV2_1 o => Some (LoansFixedV2_1.contract o)
  | ObjV2_3 o => LoansFixedV2_3.contract o
  | ObjCollectionV2_3 o => LoansFixedCollectionV2_3.contract o
  end.

(** The name passed as [function] to [call] by method [m] of class [c]. *)
Definition entry_point (c : AdapterClass) (m : Method) : string :=
  match m with
  | AcceptOffer =>
      match c with
      | ClassCollectionV2_3 => "acceptCollectionOffer"
      | ClassV2_1 | ClassV2_3 => "acceptOffer"
      end
  | LiquidateOverdueLoan => "liquidateOverdueLoan"
  | PayBackLoan => "payBackLoan"
  | CancelLoanCommitmentBeforeLoanHasBegun => "cancelLoanCommitmentBeforeLoanHasBegun"
  end.

(** The negative result of each method. *)
Definition negative_shape (m : Method) : Value :=
  match m with
  | AcceptOffer | PayBackLoan => negative_result
  | LiquidateOverdueLoan | CancelLoanCommitmentBeforeLoanHasBegun => VBool false
  end.

(** What each method reports for a receipt the call resolved with. *)
Definition resolved_shape (m : Method) (receipt : Value) : Value :=
  match m with
  | AcceptOffer | PayBackLoan => action_result receipt
  | LiquidateOverdueLoan | CancelLoanCommitmentBeforeLoanHasBegun =>
      VBool (strict_eq_1 (optProp receipt "status"))
  end.

(** The answer of the first contract call among [evs], if there is one. *)
Fixpoint call_result (evs : list Event) : option (Outcome Value) :=
  match evs with
  | [] => None
  | EvCall _ _ _ r :: _ => Some r
  | _ :: rest => call_result rest
  end.

Definition expected (m : Method) (evs : list Event) : Value :=
  match call_result evs with
  | Some (Returned receipt) => resolved_shape m receipt
  | Some (Thrown _) | None => negative_shape m
  end.

(** The status a result reports: the boolean itself, or its [status]. *)
Definition reported_status (v : Value) : bool :=
  match v with
  | VBool b => b
  | VObj props => match lookup "status" props with VBool b => b | _ => false end
  | _ => false
  end.

(** Did a contract call among [evs] resolve with a receipt of status 1? *)
Definition resolved_with_status_1 (evs : list Event) : bool :=
  existsb (fun e => match e with
                    | EvCall _ _ _ (Returned receipt) =>
                        strict_eq_1 (optProp receipt "status")
                    | _ => false
                    end) evs.

(** Did a contract call, or the creation of the handle, throw among [evs]? *)
Definition backend_threw (evs : list Event) : bool :=
  existsb (fun e => match e with
                    | EvCall _ _ _ (Thrown _) => true
                    | EvCreate _ _ (Thrown _) => true
                    | _ => false
                    end) evs.

(** [config.loan.fixed.<version>] as each class reads it. *)
Definition class_config (c : AdapterClass) (cfg : Config.t) : Config.Contract :=
  match c with
  | ClassV2_1 => Config.loan_fixed_v2_1 cfg
  | ClassV2_3 => Config.loan_fixed_v2_3 cfg
  | ClassCollectionV2_3 => Config.loan_fixed_collection_v2_3 cfg
  end.

(** [options?.config] and [options?.contractFactory]. *)
Definition configured (options : option AdapterOptions) : option Config.t :=
  match options with Some o => opt_config o | None => None end.

Definition factory_of (options : option AdapterOptions) : option ContractFactory :=
  match options with Some o => opt_contractFactory o | None => None end.

(** Is [e] the creation of the handle of class [c] under [options],
    answered by [created]? *)
Definition creates_for (c : AdapterClass) (options : option AdapterOptions)
    (created : Outcome nat) (e : Event) : Prop :=
  exists cfg,
    configured options = Some cfg /\
    e = EvCreate (Config.address (class_config c cfg))
                 (Config.abi (class_config c cfg)) created.

(** Every event is a call on handle [id]. *)
Fixpoint only_calls_to (id : nat) (evs : list Event) : bool :=
  match evs with
  | [] => true
  | EvCall i _ _ _ :: rest => (i =? id)%nat && only_calls_to id rest
  | _ :: _ => false
  end.

(** Creations that threw, then at most one creation that returned a
    handle, then calls on that handle only. *)
Fixpoint one_handle (evs : list Event) : bool :=
  match evs with
  | [] => true
  | EvCreate _ _ (Thrown _) :: rest => one_handle rest
  | EvCreate _ _ (Returned id) :: rest => only_calls_to id rest
  | _ :: _ => false
  end.

(** Is [e] something other than a call to a function not named [fn]? *)
Definition calls_only (fn : string) (e : Event) : bool :=
  match e with
  | EvCall _ f _ _ => (f =? fn)%string
  | _ => true
  end.

(** The events a sequence of calls may append, given the handle cached
    when it starts. *)
Definition session_events (before : option ContractHandle) (evs : list Event) : bool :=
  match before with
  | Some h => only_calls_to (handle_id h) evs
  | None => one_handle evs
  end.

(** The events one method call can append, given the handle cached before
    and after it. *)
Inductive step_events (c : AdapterClass) (m : Method)
  : option ContractHandle -> option ContractHandle -> list Event -> Prop :=
| SE_none (h : option ContractHandle) :
    step_events c m h h []
| SE_call (h : ContractHandle) args r :
    step_events c m (Some h) (Some h) [EvCall (handle_id h) (entry_point c m) args r]
| SE_create_threw address abi e :
    step_events c m None None [EvCreate address abi (Thrown e)]
| SE_created (h : ContractHandle) address abi :
    step_events c m None (Some h) [EvCreate address abi (Returned (handle_id h))]
| SE_created_call (h : ContractHandle) address abi args r :
    step_events c m None (Some h)
      [EvCreate address abi (Returned (handle_id h));
       EvCall (handle_id h) (entry_point c m) args r].

(* ------------------------------------------------------------------ *)
(** ** The router's verbs and the table entries they name *)

(** [config.loan.fixed.<a>]: the table entry of an adapter. *)
Definition config_of (a : AdapterName) (c : Config.t) : Config.Contract :=
  match a with
  | V1 => Config.loan_fixed_v1 c
  | V2 => Config.loan_fixed_v2 c
  | V2_1 => Config.loan_fixed_v2_1 c
  | V2_3 => Config.loan_fixed_v2_3 c
  | CollectionV2 => Config.loan_fixed_collection_v2 c
  | CollectionV2_3 => Config.loan_fixed_collection_v2_3 c
  end.

(** The contract-version name an adapter is registered under. *)
Definition version_name (a : AdapterName) : string :=
  Config.name (config_of a Config.mainnetConfig).

(** The adapters that have a [case] in [begin]. *)
Definition begin_supports (a : AdapterName) : bool :=
  match a with
  | V1 | V2 => false
  | V2_1 | V2_3 | CollectionV2 | CollectionV2_3 => true
  end.

(** [{ errors: { 'nftfi.contract.name': ['<name> not supported'] } }]. *)
Definition not_supported (contractName : string) : Value :=
  VObj [("errors",
         VObj [("nftfi.contract.name",
                VArr [VStr (contractName ++ " not supported")])])].

(** The public methods of [Loans]. *)
Inductive Verb : Type :=
| Get | Begin | Liquidate | Repay | RevokeOffer.

Definition run {H} (this : Loans.t H) (v : Verb) : Value -> M (Loans.State H) Value :=
  match v with
  | Get => Loans.get this
  | Begin => Loans.begin this
  | Liquidate => Loans.liquidate this
  | Repay => Loans.repay this
  | RevokeOffer => Loans.revokeOffer this
  end.

(** The assertion each method makes first. *)
Definition precondition (a : Assertion) (v : Verb) : Outcome unit :=
  match v with
  | Get => hasAddress a
  | Begin | Liquidate | Repay | RevokeOffer => hasSigner a
  end.

(** [Listings] over the mainnet table, with sample pagination options. *)
Definition mainnetListings : Listings.t :=
  {| Listings.api := Fixtures.emptyApi;
     Listings.config := Config.mainnetConfig;
     Listings.helper := {| addCurrencyUnit := fun v => v |};
     Listings.error := Fixtures.errorHandler |}.

Definition paginationOptions (page limit : Value) : Value :=
  VObj [("pagination", VObj [("page", page); ("limit", limit)])].

(* ------------------------------------------------------------------ *)
(** ** What each verb reads from its options and hands to the adapter *)

(** The property path each verb switches on. *)
Definition name_path (v : Verb) : list string :=
  match v with
  | Begin => ["offer"; "nftfi"; "contract"; "name"]
  | Get | Liquidate | Repay | RevokeOffer => ["nftfi"; "contract"; "name"]
  end.

(** The adapter method behind each verb. *)
Definition verb_method (v : Verb) : Method :=
  match v with
  | Get | Begin => AcceptOffer
  | Liquidate => LiquidateOverdueLoan
  | Repay => PayBackLoan
  | RevokeOffer => CancelLoanCommitmentBeforeLoanHasBegun
  end.

(** [liquidate], [repay] and [revokeOffer] rebuild the adapter's argument
    from one value of the options. *)
Definition forwards (v : Verb) : bool :=
  match v with
  | Liquidate | Repay | RevokeOffer => true
  | Get | Begin => false
  end.

(** Where a method finds its one argument: [options.loan.id] or
    [options.offer.nonce]. *)
Definition argument_path (m : Method) : list string :=
  match m with
  | AcceptOffer => []
  | LiquidateOverdueLoan | PayBackLoan => ["loan"; "id"]
  | CancelLoanCommitmentBeforeLoanHasBegun => ["offer"; "nonce"]
  end.

(** [{ loan: { id: x } }] or [{ offer: { nonce: x } }]. *)
Definition forwarded (m : Method) (x : Value) : Value :=
  match m with
  | CancelLoanCommitmentBeforeLoanHasBegun => VObj [("offer", VObj [("nonce", x)])]
  | AcceptOffer | LiquidateOverdueLoan | PayBackLoan => VObj [("loan", VObj [("id", x)])]
  end.

(** What the verb makes of the adapter's answer: [{ success }] for
    [liquidate] and [revokeOffer], the answer itself otherwise. *)
Definition wrapped (v : Verb) (answer : Value) : Value :=
  match v with
  | Liquidate | RevokeOffer => VObj [("success", answer)]
  | Get | Begin | Repay => answer
  end.



(** How each class prints the two amounts of an offer. *)
Definition serializer (c : AdapterClass) (fmt : NumberFormat)
  : Value -> Outcome string :=
  match c with
  | ClassCollectionV2_3 => fun v => Returned (js_String v)
  | ClassV2_1 | ClassV2_3 => toLocaleString fmt
  end.

(** The arguments of the contract call a method makes, as read from its
    options. *)
Definition method_args (c : AdapterClass) (fmt : NumberFormat) (m : Method)
    (options : Value) : Outcome (list Value) :=
  match m with
  | AcceptOffer => offer_args (serializer c fmt) options
  | LiquidateOverdueLoan | PayBackLoan | CancelLoanCommitmentBeforeLoanHasBegun =>
      obind (getPath options (argument_path m)) (fun x => Returned [x])
  end.

(** The three adapters of [sdk_fixed] that are objects in the heap. *)
Definition object_at (a : AdapterName) (h : Heap) : option AdapterObject :=
  match a with
  | V2_1 => Some (obj_v2_1 h)
  | V2_3 => Some (obj_v2_3 h)
  | CollectionV2_3 => Some (obj_collection_v2_3 h)
  | V1 | V2 | CollectionV2 => None
  end.

(** An API client that fails, and one whose response has no [results]. *)
Definition downApi : ApiClient :=
  {| api_answer := fun _ _ _ => Thrown (Fault (VStr "network down")) |}.

Definition answering (response : Value) : ApiClient :=
  {| api_answer := fun _ _ _ => Returned response |}.

Definition listingsOver (api : ApiClient) (f : Value -> Value) : Listings.t :=
  {| Listings.api := api;
     Listings.config := Config.mainnetConfig;
     Listings.helper := {| addCurrencyUnit := f |};
     Listings.error := Fixtures.errorHandler |}.

Definition loansOver (api : ApiClient) (f : Value -> Value) : Loans.t Heap :=
  {| Loans.api := api;
     Loans.account := {| getAddress := Returned (VStr "0x00000000") |};
     Loans.fixed := sdk_fixed plainFormat Fixtures.absentAdapter
                      Fixtures.absentAdapter Fixtures.absentAdapter;
     Loans.helper := {| addCurrencyUnit := f |};
     Loans.assertion := Fixtures.signerPresent;
     Loans.error := Fixtures.errorHandler |}.

(** A stand-in for [addCurrencyUnit]: tags a record with a unit. *)
Definition tagUnit (v : Value) : Value :=
  match v with
  | VObj props => VObj (props ++ [("unit", VStr "ether")])
  | _ => v
  end.


(** An amount [String(..)] prints as digits that read back as the same
    integer: a non-negative safe-integer Number, a BigInt, or a string of
    digits already. *)
Definition exact_amount (v : Value) : option Z :=
  match v with
  | VNum z => if (0 <=? z) && (z <? 2 ^ 53) then Some z else None
  | VBigInt z => Some z
  | VStr s => parse_digits s
  | _ => None
  end.


(** The private [#contractFactory] and [#config] of an adapter object. *)
Definition object_factory (obj : AdapterObject) : option ContractFactory :=
  match obj with
  | ObjV2_1 o => LoansFixedV2_1.contractFactory o
  | ObjV2_3 o => LoansFixedV2_3.contractFactory o
  | ObjCollectionV2_3 o => LoansFixedCollectionV2_3.contractFactory o
  end.

Definition object_config (obj : AdapterObject) : option Config.t :=
  match obj with
  | ObjV2_1 o => LoansFixedV2_1.config o
  | ObjV2_3 o => LoansFixedV2_3.config o
  | ObjCollectionV2_3 o => LoansFixedCollectionV2_3.config o
  end.

(** The contract calls among [evs], in order: the [function] and the
    [args] of each. *)
Definition calls (evs : list Event) : list (string * list Value) :=
  flat_map (fun e => match e with
                     | EvCall _ fn args _ => [(fn, args)]
                     | _ => []
                     end) evs.

(* ------------------------------------------------------------------ *)
(** * Properties *)

Example number_toString_small : number_toString 123 = "123".
Proof. reflexivity. Qed.

(** ** One method call on an adapter object *)

Ltac break_match :=
  repeat (match goal with
          | |- context [match ?x with _ => _ end] =>
              lazymatch x with
              | context [match _ with _ => _ end] => fail
              | _ => destruct x eqn:?
              end
          end; cbv beta iota).

Ltac unfold_adapter :=
  unfold send, within,
    LoansFixedV2_1.acceptOffer, LoansFixedV2_1.liquidateOverdueLoan,
    LoansFixedV2_1.payBackLoan, LoansFixedV2_1.cancelLoanCommitmentBeforeLoanHasBegun,
    LoansFixedV2_3.acceptOffer, LoansFixedV2_3.liquidateOverdueLoan,
    LoansFixedV2_3.payBackLoan, LoansFixedV2_3.cancelLoanCommitmentBeforeLoanHasBegun,
    LoansFixedV2_3._contract,
    LoansFixedCollectionV2_3.acceptOffer, LoansFixedCollectionV2_3.liquidateOverdueLoan,
    LoansFixedCollectionV2_3.payBackLoan,
    LoansFixedCollectionV2_3.cancelLoanCommitmentBeforeLoanHasBegun,
    LoansFixedCollectionV2_3._contract,
    try_catch, bind, lift, ret, throw, on_trace, call, create.

Ltac pick_events :=
  first
    [ exists (@nil Event); rewrite app_nil_r; split; [reflexivity |]
    | rewrite <- ?app_assoc; cbn [app]; eexists; split; [reflexivity |] ].

(** Every method call returns; it appends the events of one of the five
    shapes of [step_events], and reports exactly what [expected] reads off
    those events. *)
Lemma send_spec (fmt : NumberFormat) (m : Method) (options : Value)
    (obj : AdapterObject) (tr : Trace) :
  exists v obj' evs,
    send fmt m options (obj, tr) = (Returned v, (obj', (tr ++ evs)%list)) /\
    class_of obj' = class_of obj /\
    step_events (class_of obj) m (cached obj) (cached obj') evs /\
    v = expected m evs.
Proof.
  destruct obj as [o | o | o]; destruct m; unfold_adapter; cbv beta iota;
    break_match;
    do 2 eexists; pick_events;
    (split; [reflexivity |]);
    (split; [simpl;
             try match goal with H : _ = Some _ |- _ => rewrite H end;
             try match goal with H : _ = None |- _ => rewrite H end;
             eauto using step_events
            | unfold expected; simpl;
              try match goal with H : strict_eq_1 _ = _ |- _ => rewrite H end;
              reflexivity ]).
Qed.

(* ------------------------------------------------------------------ *)
(** ** Consequences of the five event shapes *)

Lemma step_events_cached c m (h : ContractHandle) after evs :
  step_events c m (Some h) after evs ->
  after = Some h /\ only_calls_to (handle_id h) evs = true.
Proof.
  intros Hstep. inversion Hstep; subst; split; try reflexivity.
  simpl. now rewrite Nat.eqb_refl.
Qed.

Lemma step_events_backend_threw c m before after evs :
  step_events c m before after evs ->
  backend_threw evs = true ->
  expected m evs = negative_shape m.
Proof.
  intros Hstep Hthrew.
  inversion Hstep; subst; try reflexivity; try discriminate;
    unfold expected; simpl in *; destruct r; (discriminate || reflexivity).
Qed.

Lemma reported_status_resolved m receipt :
  reported_status (resolved_shape m receipt) = strict_eq_1 (optProp receipt "status").
Proof. destruct m; reflexivity. Qed.

Lemma reported_status_negative m : reported_status (negative_shape m) = false.
Proof. destruct m; reflexivity. Qed.

Lemma step_events_status c m before after evs :
  step_events c m before after evs ->
  reported_status (expected m evs) = resolved_with_status_1 evs.
Proof.
  intros Hstep.
  inversion Hstep; subst; unfold expected; simpl;
    try apply reported_status_negative;
    destruct r; simpl;
    rewrite ?reported_status_resolved, ?reported_status_negative, ?orb_false_r;
    reflexivity.
Qed.

Lemma step_events_entry_point c m before after evs :
  step_events c m before after evs ->
  forallb (calls_only (entry_point c m)) evs = true.
Proof.
  intros Hstep. inversion Hstep; subst; simpl;
    rewrite ?String.eqb_refl; reflexivity.
Qed.

Lemma step_events_no_call c m before after evs :
  step_events c m before after evs ->
  call_result evs = None \/
  exists id args r, In (EvCall id (entry_point c m) args r) evs.
Proof.
  intros Hstep. inversion Hstep; subst; simpl; eauto 8.
Qed.

Lemma only_calls_to_app id evs1 evs2 :
  only_calls_to id (evs1 ++ evs2) = only_calls_to id evs1 && only_calls_to id evs2.
Proof.
  induction evs1 as [| e evs1 IH]; simpl; [reflexivity |].
  destruct e; try reflexivity.
  now rewrite IH, andb_assoc.
Qed.

Lemma session_events_step c m before after evs1 evs2 :
  step_events c m before after evs1 ->
  session_events after evs2 = true ->
  session_events before (evs1 ++ evs2) = true.
Proof.
  intros Hstep Hrest.
  inversion Hstep; subst; simpl in *; rewrite ?Nat.eqb_refl; simpl; assumption.
Qed.

(** Any sequence of method calls on one object returns and keeps to one
    handle. *)
Lemma session_spec (fmt : NumberFormat) (calls : list (Method * Value)) :
  forall (obj : AdapterObject) (tr : Trace),
  exists vs obj' evs,
    session fmt calls (obj, tr) = (Returned vs, (obj', (tr ++ evs)%list)) /\
    class_of obj' = class_of obj /\
    session_events (cached obj) evs = true.
Proof.
  induction calls as [| [m options] rest IH]; intros obj tr.
  - exists [], obj, []. rewrite app_nil_r. repeat split.
    unfold session_events. now destruct (cached obj).
  - destruct (send_spec fmt m options obj tr)
      as (v & obj1 & evs1 & Hsend & Hclass1 & Hstep & _).
    destruct (IH obj1 (tr ++ evs1)%list) as (vs & obj2 & evs2 & Hrest & Hclass2 & Hok).
    exists (v :: vs), obj2, (evs1 ++ evs2)%list.
    split; [| split].
    + cbn [session]. unfold bind, ret, Trace in *. cbv beta.
      rewrite Hsend. cbv beta iota. rewrite Hrest. now rewrite app_assoc.
    + congruence.
    + eapply session_events_step; eassumption.
Qed.

(** Constructing an object of a lazy class touches nothing. *)
Lemma new_lazy (c : AdapterClass) (options : option AdapterOptions) (tr : Trace) :
  c <> ClassV2_1 ->
  exists obj, new c options tr = (Returned obj, tr) /\
              class_of obj = c /\ cached obj = None.
Proof.
  destruct c; intros Hc; [congruence | |]; eexists; repeat split.
Qed.

(** Constructing a v2.1 object asks the factory for its handle. *)
Lemma new_eager (options : option AdapterOptions) (tr : Trace) :
  match new ClassV2_1 options tr with
  | (Returned obj, tr') =>
      exists e h,
        cached obj = Some h /\ class_of obj = ClassV2_1 /\
        creates_for ClassV2_1 options (Returned (handle_id h)) e /\
        tr' = (tr ++ [e])%list
  | (Thrown _, tr') =>
      tr' = tr \/
      exists e err,
        creates_for ClassV2_1 options (Thrown err) e /\ tr' = (tr ++ [e])%list
  end.
Proof.
  unfold new, LoansFixedV2_1.constructor, bind, ret, throw, create, creates_for.
  destruct options as [[[cfg |] [f |]] |];
    cbv beta iota; cbn [opt_config opt_contractFactory configured];
    try (left; reflexivity).
  destruct (factory_create f tr _ _) as [h | err]; cbn [created_id].
  - eexists _, h. repeat split. now exists cfg.
  - right. eexists _, err. split; [now exists cfg | reflexivity].
Qed.

(** A method call on an object of a lazy class that holds no handle starts
    by creating one, unless the factory or the configuration is missing or
    ([acceptOffer] only) the offer cannot be read. *)
Lemma lazy_first_use (fmt : NumberFormat) (c : AdapterClass)
    (options : option AdapterOptions) (m : Method) (o : Value) (tr : Trace) :
  c <> ClassV2_1 ->
  exists obj v obj' evs,
    new c options tr = (Returned obj, tr) /\
    send fmt m o (obj, tr) = (Returned v, (obj', (tr ++ evs)%list)) /\
    match evs with
    | [] => m = AcceptOffer \/ configured options = None \/ factory_of options = None
    | e :: _ => exists created, creates_for c options created e
    end.
Proof.
  intros Hc. unfold creates_for.
  assert (Hnew : exists obj,
             new c options tr = (Returned obj, tr) /\
             exists v obj' evs,
               send fmt m o (obj, tr) = (Returned v, (obj', (tr ++ evs)%list)) /\
               match evs with
               | [] => m = AcceptOffer \/ configured options = None \/
                       factory_of options = None
               | e :: _ =>
                   exists created cfg,
                     configured options = Some cfg /\
                     e = EvCreate (Config.address (class_config c cfg))
                                  (Config.abi (class_config c cfg)) created
               end).
  { destruct c; [congruence | |]; (eexists; split; [reflexivity |]);
      destruct options as [[[cfg |] [f |]] |];
      destruct m;
      cbn [opt_config opt_contractFactory configured factory_of];
      unfold_adapter; cbv beta iota;
      cbn [LoansFixedV2_3.contract LoansFixedV2_3.config
           LoansFixedV2_3.contractFactory
           LoansFixedCollectionV2_3.contract LoansFixedCollectionV2_3.config
           LoansFixedCollectionV2_3.contractFactory];
      break_match;
      do 2 eexists; pick_events;
      first [ now (do 2 eexists; split; reflexivity)
            | now left | now (right; left) | now (right; right) ]. }
  destruct Hnew as (obj & Hobj & v & obj' & evs & Hsend & Hevs).
  now exists obj, v, obj', evs.
Qed.

(* ------------------------------------------------------------------ *)
(** ** Sample runs *)

Module Samples.
Import Fixtures.

(** A lazy object is created without a trace entry, creates its handle
    on the first call and reuses it on the second. *)
Example lazy_handle_reused :
  (o <- new ClassV2_3 (optionsOf (factoryOf (okHandle 2))) ;;
   fun tr => let '(r, (_, tr')) :=
               session plainFormat
                 [(LiquidateOverdueLoan, loanOptions (VNum 3) "v2-3.loan.fixed");
                  (PayBackLoan, loanOptions (VNum 4) "v2-3.loan.fixed")] (o, tr) in
             (r, tr')) []
  = (Returned [VBool true;
               VObj [("receipt", VObj [("status", VNum 1)]); ("status", VBool true)]],
     [EvCreate "0xd0a40eB7FD94eE97102BA8e9342243A2b2E22207" Config.v2_abi
        (Returned 2%nat);
      EvCall 2 "liquidateOverdueLoan" [VNum 3] (Returned (VObj [("status", VNum 1)]));
      EvCall 2 "payBackLoan" [VNum 4] (Returned (VObj [("status", VNum 1)]))]).
Proof. reflexivity. Qed.

(** With a host that prints plain digits, the individual adapter hands
    the contract every digit of a Number amount. *)
Example individual_prints_digits :
  sent_amounts
    (snd (snd (send plainFormat AcceptOffer
                 (offer thousand elevenHundred "v2-3.loan.fixed")
                 (obj_v2_3 (heapOf okHandle), []))))
  = [(VStr "1000000000000000000000", VStr "1100000000000000000000")].
Proof. reflexivity. Qed.

(** A receipt whose status is not the Number 1 is a failure. *)
Example reverted_is_failure :
  fst (send plainFormat PayBackLoan (loanOptions (VNum 3) "v2-1.loan.fixed")
         (v2_1_object (revertedHandle 1), []))
  = Returned (VObj [("receipt", VObj [("status", VNum 0)]); ("status", VBool false)]).
Proof. reflexivity. Qed.

(** [liquidate] end to end: a backend answering status 1 gives
    [{ success: true }], a backend that times out [{ success: false }]. *)
Example liquidate_succeeds :
  fst (Loans.liquidate (sdk signerPresent)
         (loanOptions (VNum 3) "v2-3.loan.fixed.collection") (stateOf okHandle))
  = Returned (VObj [("success", VBool true)]).
Proof. reflexivity. Qed.

Example liquidate_times_out :
  fst (Loans.liquidate (sdk signerPresent)
         (loanOptions (VNum 3) "v2-3.loan.fixed.collection") (stateOf timeoutHandle))
  = Returned (VObj [("success", VBool false)]).
Proof. reflexivity. Qed.

(** [revokeOffer] end to end on the v2.1 adapter, whose handle exists
    since construction. *)
Example revokeOffer_succeeds :
  let r := Loans.revokeOffer (sdk signerPresent)
             (revokeOptions (VStr "42") "v2-1.loan.fixed") (stateOf okHandle) in
  fst r = Returned (VObj [("success", VBool true)]) /\
  Loans.trace (snd r)
  = [EvCall 1 "cancelLoanCommitmentBeforeLoanHasBegun" [VStr "42"]
       (Returned (VObj [("status", VNum 1)]))].
Proof. split; reflexivity. Qed.

(** Amounts between 2^53 and 1e21 print as the shortest digits that read
    back as the same Number, padded with zeros. *)
Example String_of_large_number :
  js_String (VNum 12345678901234567890) = "12345678901234567000"
  /\ roundDouble 12345678901234567890 = 12345678901234567168.
Proof. split; vm_compute; reflexivity. Qed.

End Samples.

(** [String] of a BigInt, or of a string of digits, is those digits. *)
Lemma js_String_bigint_roundtrip (z : Z) :
  parse_digits (js_String (VBigInt z)) = Some z.
Proof.
  unfold parse_digits, js_String, digits.
  assert (Hnil : forall p, Pos.to_uint p <> Decimal.Nil)
    by apply DecimalPos.Unsigned.to_uint_nonnil.
  rewrite NilZero.isi.
  - simpl. f_equal. apply DecimalZ.of_to.
  - destruct z; simpl; try discriminate. intros [= Hp]. now apply (Hnil p).
  - destruct z; simpl; try discriminate. intros [= Hp]. now apply (Hnil p).
Qed.

(* ------------------------------------------------------------------ *)
(** ** The contract handle of an adapter *)

(** C1, as the claim states it, fails for the v2.1 adapter: its constructor
    calls [contractFactory.create] (one creation is on the trace before any
    method is used), and construction fails when the backend does. *)
Lemma C1_v2_1_constructor_calls_factory :
  snd (new ClassV2_1 (Fixtures.optionsOf (Fixtures.factoryOf (Fixtures.okHandle 7))) [])
  = [EvCreate "0x8252Df1d8b29057d1Afe3062bf5a64D503152BC8" Config.v2_abi
       (Returned 7%nat)]
  /\ fst (new ClassV2_1 (Fixtures.optionsOf Fixtures.downFactory) [])
     = Thrown (Fault (VStr "network down")).
Proof. split; reflexivity. Qed.

(** C1, amended.  Constructing a v2.3 adapter (individual or collection)
    always succeeds, appends nothing to the trace and leaves no handle
    cached; a method call on the new object then starts by creating the
    handle at the address and ABI the table registers for the class,
    unless the factory or the configuration is missing or ([acceptOffer]
    only) the offer cannot be read.  Constructing a v2.1 adapter appends
    exactly one such creation and caches the handle it returned; it is the
    only constructor that can throw, and then the trace gains nothing or
    the one creation that threw.  Whatever sequence of methods is then
    called on the object,
    every call returns, and the events appended keep to one handle: for
    v2.1 they are calls on the constructor's handle only; for v2.3 no call
    precedes a creation that returned a handle, and after that creation
    there are only calls on that handle and no further creation. *)
Theorem C1_one_handle_per_adapter
    (fmt : NumberFormat) (c : AdapterClass) (options : option AdapterOptions)
    (calls : list (Method * Value)) (m : Method) (o : Value) (tr : Trace) :
  match new c options tr with
  | (Returned obj, tr0) =>
      match c with
      | ClassV2_1 =>
          exists e h,
            cached obj = Some h /\
            creates_for ClassV2_1 options (Returned (handle_id h)) e /\
            tr0 = (tr ++ [e])%list
      | ClassV2_3 | ClassCollectionV2_3 =>
          cached obj = None /\ tr0 = tr /\
          exists v obj' evs,
            send fmt m o (obj, tr0) = (Returned v, (obj', (tr0 ++ evs)%list)) /\
            match evs with
            | [] => m = AcceptOffer \/ configured options = None \/
                    factory_of options = None
            | e :: _ => exists created, creates_for c options created e
            end
      end /\
      exists vs obj' evs,
        session fmt calls (obj, tr0) = (Returned vs, (obj', (tr0 ++ evs)%list)) /\
        session_events (cached obj) evs = true
  | (Thrown _, tr0) =>
      c = ClassV2_1 /\
      (tr0 = tr \/
       exists e err,
         creates_for ClassV2_1 options (Thrown err) e /\ tr0 = (tr ++ [e])%list)
  end.
Proof.
  assert (Hsession : forall obj tr0, exists vs obj' evs,
             session fmt calls (obj, tr0) = (Returned vs, (obj', (tr0 ++ evs)%list)) /\
             session_events (cached obj) evs = true).
  { intros obj tr0.
    destruct (session_spec fmt calls obj tr0) as (vs & obj' & evs & Hrun & _ & Hok).
    now exists vs, obj', evs. }
  assert (Hlazy : c <> ClassV2_1 ->
            match new c options tr with
            | (Returned obj, tr0) =>
                (cached obj = None /\ tr0 = tr /\
                 exists v obj' evs,
                   send fmt m o (obj, tr0) = (Returned v, (obj', (tr0 ++ evs)%list)) /\
                   match evs with
                   | [] => m = AcceptOffer \/ configured options = None \/
                           factory_of options = None
                   | e :: _ => exists created, creates_for c options created e
                   end) /\
                exists vs obj' evs,
                  session fmt calls (obj, tr0)
                  = (Returned vs, (obj', (tr0 ++ evs)%list)) /\
                  session_events (cached obj) evs = true
            | (Thrown _, _) => False
            end).
  { intros Hc.
    destruct (new_lazy c options tr Hc) as (obj & Hnew & _ & Hcached).
    destruct (lazy_first_use fmt c options m o tr Hc)
      as (obj1 & v & obj' & evs & Hnew1 & Hsend & Hevs).
    rewrite Hnew in *. inversion Hnew1; subst obj1.
    split; [| apply Hsession].
    split; [assumption | split; [reflexivity |]].
    now exists v, obj', evs. }
  destruct c.
  - pose proof (new_eager options tr) as Hnew.
    destruct (new ClassV2_1 options tr) as [[obj | err] tr0].
    + destruct Hnew as (e & h & Hcached & _ & Hcreate & Htr).
      split; [now exists e, h | apply Hsession].
    + now split.
  - specialize (Hlazy ltac:(discriminate)).
    destruct (new ClassV2_3 options tr) as [[obj | err] tr0]; [exact Hlazy | contradiction].
  - specialize (Hlazy ltac:(discriminate)).
    destruct (new ClassCollectionV2_3 options tr) as [[obj | err] tr0];
      [exact Hlazy | contradiction].
Qed.

(* ------------------------------------------------------------------ *)
(** ** Amounts handed to the contract *)

(** C2 at a failing input.  A principal of 1000 units of an 18-decimals
    currency is the Number 1e21.  The collection adapter prints amounts with
    [String(..)], so the contract is handed ["1e+21"] and ["1.1e+21"]:
    scientific notation, which is not a string of digits. *)
Theorem C2_collection_prints_scientific_notation :
  Fixtures.sent_amounts
    (snd (snd (send plainFormat AcceptOffer
                 (Fixtures.offer Fixtures.thousand Fixtures.elevenHundred
                    "v2-3.loan.fixed.collection")
                 (obj_collection_v2_3 (Fixtures.heapOf Fixtures.okHandle), []))))
  = [(VStr "1e+21", VStr "1.1e+21")]
  /\ parse_digits "1e+21" = None
  /\ parse_digits "1.1e+21" = None.
Proof. repeat split; vm_compute; reflexivity. Qed.

(* ------------------------------------------------------------------ *)
(** ** Results of the adapter methods *)

(** C5.  When the contract call made by a method of any of the three
    adapters throws (or the creation of its handle does), the method
    returns, it does not throw, and what it returns is the negative result
    of its shape: [{ receipt: null, status: false }] for [acceptOffer] and
    [payBackLoan], [false] for [liquidateOverdueLoan] and
    [cancelLoanCommitmentBeforeLoanHasBegun]. *)
Theorem C5_call_fault_becomes_negative_result
    (fmt : NumberFormat) (m : Method) (options : Value) (obj : AdapterObject)
    (tr : Trace) (o : Outcome Value) (obj' : AdapterObject) (evs : list Event) :
  send fmt m options (obj, tr) = (o, (obj', (tr ++ evs)%list)) ->
  backend_threw evs = true ->
  o = Returned (negative_shape m).
Proof.
  intros Hsend Hthrew.
  destruct (send_spec fmt m options obj tr)
    as (v & obj1 & evs1 & Hspec & _ & Hstep & Hv).
  rewrite Hspec in Hsend. inversion Hsend as [[Ho Hobj Htr]].
  apply app_inv_head in Htr. subst evs1.
  rewrite Hv. f_equal. eapply step_events_backend_threw; eassumption.
Qed.

Lemma C5_witness :
  send plainFormat PayBackLoan (Fixtures.loanOptions (VNum 3) "v2-1.loan.fixed")
    (Fixtures.v2_1_object (Fixtures.timeoutHandle 1), [])
  = (Returned negative_result,
     (Fixtures.v2_1_object (Fixtures.timeoutHandle 1),
      ([] ++ [EvCall 1 "payBackLoan" [VNum 3] (Thrown (Fault (VStr "timeout")))])%list))
  /\ backend_threw [EvCall 1 "payBackLoan" [VNum 3] (Thrown (Fault (VStr "timeout")))]
     = true
  /\ Returned negative_result = Returned (negative_shape PayBackLoan).
Proof.
  split; [reflexivity | split; [reflexivity |]].
  apply (C5_call_fault_becomes_negative_result plainFormat PayBackLoan
           (Fixtures.loanOptions (VNum 3) "v2-1.loan.fixed")
           (Fixtures.v2_1_object (Fixtures.timeoutHandle 1)) []
           (Returned negative_result)
           (Fixtures.v2_1_object (Fixtures.timeoutHandle 1))
           [EvCall 1 "payBackLoan" [VNum 3] (Thrown (Fault (VStr "timeout")))]);
    reflexivity.
Defined.

(** C6.  Every method of every adapter returns a value fixed by the answer
    of its contract call: the receipt's shape when the call resolved, the
    negative shape when it threw or was never made.  The status it reports
    (the boolean, or the [status] field) is true exactly when the call
    resolved with a receipt whose [status] is the Number 1. *)
Theorem C6_status_iff_receipt_status_1
    (fmt : NumberFormat) (m : Method) (options : Value) (obj : AdapterObject)
    (tr : Trace) :
  exists v obj' evs,
    send fmt m options (obj, tr) = (Returned v, (obj', (tr ++ evs)%list)) /\
    v = expected m evs /\
    reported_status v = resolved_with_status_1 evs.
Proof.
  destruct (send_spec fmt m options obj tr)
    as (v & obj' & evs & Hspec & _ & Hstep & Hv).
  exists v, obj', evs. repeat split; try assumption.
  rewrite Hv. eapply step_events_status; eassumption.
Qed.

(** What one method call does, case by case: with readable arguments and
    a handle in [#contract] afterwards, the events are one call on that
    handle (after its creation, when none was held); without a handle
    afterwards, nothing was called; with unreadable arguments likewise. *)
Lemma send_outcome (fmt : NumberFormat) (m : Method) (options : Value)
    (obj : AdapterObject) (tr : Trace) :
  exists v obj' evs,
    send fmt m options (obj, tr) = (Returned v, (obj', (tr ++ evs)%list)) /\
    match method_args (class_of obj) fmt m options with
    | Returned args =>
        match cached obj' with
        | Some h =>
            exists answer,
              (evs = [EvCall (handle_id h) (entry_point (class_of obj) m) args answer] \/
               exists address abi,
                 cached obj = None /\
                 evs = [EvCreate address abi (Returned (handle_id h));
                        EvCall (handle_id h) (entry_point (class_of obj) m) args answer]) /\
              v = match answer with
                  | Returned receipt => resolved_shape m receipt
                  | Thrown _ => negative_shape m
                  end
        | None =>
            v = negative_shape m /\
            (evs = [] /\ (object_factory obj = None \/ object_config obj = None) \/
             exists address abi e, evs = [EvCreate address abi (Thrown e)])
        end
    | Thrown _ => v = negative_shape m /\ calls evs = []
    end.
Proof.
  destruct obj as [o | o | o]; destruct m;
    cbn [class_of method_args serializer entry_point argument_path cached
         object_factory object_config];
    unfold obind; unfold_adapter; cbv beta iota;
    break_match;
    do 2 eexists; pick_events.
  all: cbn [cached LoansFixedV2_3.contract LoansFixedCollectionV2_3.contract
            created_id negative_shape resolved_shape].
  all: try match goal with H : ?x = Some _ |- context [?x] => rewrite H end.
  all: try match goal with H : ?x = None |- context [?x] => rewrite H end.
  all: try solve [ split; reflexivity
                 | eexists; split; [left; reflexivity | reflexivity]
                 | eexists; split; [right; do 2 eexists; split; reflexivity | reflexivity]
                 | split; [reflexivity | left; split; [reflexivity | now left]]
                 | split; [reflexivity | left; split; [reflexivity | now right]]
                 | split; [reflexivity | right; now do 3 eexists] ].
  all: solve
    [ eexists; split;
      [ left; reflexivity
      | cbn [resolved_shape negative_shape];
        match goal with H : strict_eq_1 _ = _ |- _ => rewrite H end; reflexivity ]
    | eexists; split;
      [ right; do 2 eexists; split; reflexivity
      | cbn [resolved_shape negative_shape];
        try match goal with H : strict_eq_1 _ = _ |- _ => rewrite H end; reflexivity ] ].
Qed.

(** A method whose arguments can be read and whose object holds a handle
    afterwards has made exactly one call: on that handle, to the entry
    point of the method, with those arguments. *)
Lemma send_calls (fmt : NumberFormat) (m : Method) (options : Value)
    (obj obj' : AdapterObject) (tr : Trace) (evs : list Event)
    (args : list Value) (o : Outcome Value) (h : ContractHandle) :
  method_args (class_of obj) fmt m options = Returned args ->
  send fmt m options (obj, tr) = (o, (obj', (tr ++ evs)%list)) ->
  cached obj' = Some h ->
  exists answer,
    (evs = [EvCall (handle_id h) (entry_point (class_of obj) m) args answer] \/
     exists address abi,
       evs = [EvCreate address abi (Returned (handle_id h));
              EvCall (handle_id h) (entry_point (class_of obj) m) args answer]) /\
    o = Returned match answer with
                 | Returned receipt => resolved_shape m receipt
                 | Thrown _ => negative_shape m
                 end.
Proof.
  intros Hargs Hsend Hcached.
  destruct (send_outcome fmt m options obj tr) as (v & obj0 & evs0 & Hrun & Hcase).
  rewrite Hsend in Hrun. injection Hrun as -> -> Hevs.
  apply app_inv_head in Hevs. subst evs0.
  rewrite Hargs, Hcached in Hcase.
  destruct Hcase as (answer & Hevs & ->).
  exists answer. split; [| reflexivity].
  destruct Hevs as [-> | (address & abi & _ & ->)];
    [now left | right; now exists address, abi].
Qed.


(* ------------------------------------------------------------------ *)
(** ** Dispatch in the router *)

Lemma switch_hit {A} (v : Value) (label : string) (body : A) rest (default : A) :
  case_is v label = true ->
  switch v ((label, body) :: rest) default = body.
Proof. intros Hcase. cbn [switch]. now rewrite Hcase. Qed.

Lemma switch_skip {A} (v : Value) (label : string) (body : A) rest (default : A) :
  case_is v label = false ->
  switch v ((label, body) :: rest) default = switch v rest default.
Proof. intros Hcase. cbn [switch]. now rewrite Hcase. Qed.

(** A name that is not registered matches no label that is. *)
Lemma switch_default {A} (n : string) (cases : list (string * A)) (default : A) :
  registered n = false ->
  forallb (fun c => registered (fst c)) cases = true ->
  switch (VStr n) cases default = default.
Proof.
  intros Hn. induction cases as [| [label body] rest IH]; intros Hlabels.
  - reflexivity.
  - cbn [forallb fst] in Hlabels. apply andb_true_iff in Hlabels as [Hlabel Hrest].
    rewrite switch_skip; [now apply IH |].
    cbn [case_is]. destruct (String.eqb_spec n label) as [-> |]; congruence.
Qed.

Ltac enter_router :=
  unfold Loans.get, Loans.begin, Loans.liquidate, Loans.repay, Loans.revokeOffer,
    try_catch, bind, lift, ret; cbv beta.

(** C3, as the claim states it, fails for the registered names
    [v1.loan.fixed] and [v2.loan.fixed]: with a signer present, [begin]
    enters no adapter and answers that the name is not supported. *)
Lemma C3_begin_rejects_v1 :
  registered "v1.loan.fixed" = true /\
  Loans.begin (Fixtures.sdk Fixtures.signerPresent)
    (Fixtures.offer (VNum 1000000000000000000) (VNum 1100000000000000000)
       "v1.loan.fixed")
    (Fixtures.stateOf Fixtures.okHandle)
  = (Returned (not_supported "v1.loan.fixed"), Fixtures.stateOf Fixtures.okHandle).
Proof. split; reflexivity. Qed.

(** C3, amended.  With the signer check passing and an offer naming the
    version an adapter is registered under: for [v2-1.loan.fixed],
    [v2-3.loan.fixed], [v2.loan.fixed.collection] and
    [v2-3.loan.fixed.collection], [begin] enters [acceptOffer] of that
    adapter with the caller's options, once, and enters nothing else; its
    effect on the adapters and on the trace is that call's, and it returns
    what the call returned (the error handler's result if it threw).  For
    [v1.loan.fixed] and [v2.loan.fixed], [begin] enters no adapter and
    returns the not-supported error. *)
Theorem C3_begin_dispatch {H : Type} (this : Loans.t H) (a : AdapterName)
    (options : Value) (st : Loans.State H) :
  hasSigner (Loans.assertion this) = Returned tt ->
  getPath options ["offer"; "nftfi"; "contract"; "name"]
    = Returned (VStr (version_name a)) ->
  Loans.begin this options st =
    if begin_supports a then
      let '(o, (h, tr)) :=
        acceptOffer (adapter (Loans.fixed this) a) options
          (Loans.heap st, Loans.trace st) in
      (Returned (match o with
                 | Returned v => v
                 | Thrown e => handle (Loans.error this) e
                 end),
       {| Loans.invoked := (Loans.invoked st ++ [(a, AcceptOffer, options)])%list;
          Loans.heap := h;
          Loans.trace := tr |})
    else (Returned (not_supported (version_name a)), st).
Proof.
  intros Hsigner Hname. enter_router. rewrite Hsigner, Hname. cbv beta iota.
  destruct a; cbn [begin_supports];
    repeat (rewrite switch_skip by reflexivity);
    try (rewrite switch_hit by reflexivity);
    try reflexivity;
    unfold Loans.invoke; cbn [adapter method];
    match goal with
    | |- context [acceptOffer ?ad options ?s] =>
        destruct (acceptOffer ad options s) as [[v | e] [h tr]]
    end; reflexivity.
Qed.

Lemma C3_witness :
  hasSigner (Loans.assertion (Fixtures.sdk Fixtures.signerPresent)) = Returned tt
  /\ getPath (Fixtures.offer (VNum 1000000000000000000) (VNum 1100000000000000000)
                "v2-3.loan.fixed")
       ["offer"; "nftfi"; "contract"; "name"]
     = Returned (VStr (version_name V2_3))
  /\ Loans.invoked
       (snd (Loans.begin (Fixtures.sdk Fixtures.signerPresent)
               (Fixtures.offer (VNum 1000000000000000000) (VNum 1100000000000000000)
                  "v2-3.loan.fixed")
               (Fixtures.stateOf Fixtures.okHandle)))
     = [(V2_3, AcceptOffer,
         Fixtures.offer (VNum 1000000000000000000) (VNum 1100000000000000000)
           "v2-3.loan.fixed")].
Proof.
  split; [reflexivity | split; [reflexivity |]].
  rewrite (C3_begin_dispatch (Fixtures.sdk Fixtures.signerPresent) V2_3
             (Fixtures.offer (VNum 1000000000000000000) (VNum 1100000000000000000)
                "v2-3.loan.fixed")
             (Fixtures.stateOf Fixtures.okHandle)); reflexivity.
Defined.

(** C4.  With the signer check passing, [begin] on an offer whose contract
    name is a string that is not registered returns
    [{ errors: { 'nftfi.contract.name': ['<name> not supported'] } }]; it
    does not throw, enters no adapter and leaves the adapters and the trace
    as they were. *)
Theorem C4_begin_unregistered_name {H : Type} (this : Loans.t H)
    (options : Value) (st : Loans.State H) (contractName : string) :
  hasSigner (Loans.assertion this) = Returned tt ->
  getPath options ["offer"; "nftfi"; "contract"; "name"] = Returned (VStr contractName) ->
  registered contractName = false ->
  Loans.begin this options st = (Returned (not_supported contractName), st).
Proof.
  intros Hsigner Hname Hunregistered. enter_router.
  rewrite Hsigner, Hname. cbv beta iota.
  rewrite switch_default by (assumption || reflexivity).
  reflexivity.
Qed.

Lemma C4_witness :
  hasSigner (Loans.assertion (Fixtures.sdk Fixtures.signerPresent)) = Returned tt
  /\ getPath (Fixtures.offer (VNum 1000000000000000000) (VNum 1100000000000000000)
                "v9.loan.fixed")
       ["offer"; "nftfi"; "contract"; "name"]
     = Returned (VStr "v9.loan.fixed")
  /\ registered "v9.loan.fixed" = false
  /\ Loans.begin (Fixtures.sdk Fixtures.signerPresent)
       (Fixtures.offer (VNum 1000000000000000000) (VNum 1100000000000000000)
          "v9.loan.fixed")
       (Fixtures.stateOf Fixtures.okHandle)
     = (Returned (not_supported "v9.loan.fixed"), Fixtures.stateOf Fixtures.okHandle).
Proof.
  split; [reflexivity | split; [reflexivity | split; [reflexivity |]]].
  apply (C4_begin_unregistered_name (Fixtures.sdk Fixtures.signerPresent)
           (Fixtures.offer (VNum 1000000000000000000) (VNum 1100000000000000000)
              "v9.loan.fixed")
           (Fixtures.stateOf Fixtures.okHandle) "v9.loan.fixed"); reflexivity.
Defined.

(** C7.  With the signer check passing and a contract name that is a
    string but not registered, [liquidate] and [revokeOffer] return
    [{ success: false }] and [repay] returns [undefined], the value its
    response variable starts with.  None of them throws or builds a
    not-supported error, none enters an adapter, and the adapters and the
    trace stay as they were. *)
Theorem C7_other_verbs_fall_through {H : Type} (this : Loans.t H)
    (options : Value) (st : Loans.State H) (contractName : string) :
  hasSigner (Loans.assertion this) = Returned tt ->
  getPath options ["nftfi"; "contract"; "name"] = Returned (VStr contractName) ->
  registered contractName = false ->
  Loans.liquidate this options st = (Returned (VObj [("success", VBool false)]), st) /\
  Loans.repay this options st = (Returned VUndefined, st) /\
  Loans.revokeOffer this options st = (Returned (VObj [("success", VBool false)]), st).
Proof.
  intros Hsigner Hname Hunregistered.
  repeat split; enter_router; rewrite Hsigner, Hname; cbv beta iota;
    rewrite switch_default by (assumption || reflexivity); reflexivity.
Qed.

Lemma C7_witness :
  hasSigner (Loans.assertion (Fixtures.sdk Fixtures.signerPresent)) = Returned tt
  /\ getPath (Fixtures.loanOptions (VNum 3) "v9.loan.fixed") ["nftfi"; "contract"; "name"]
     = Returned (VStr "v9.loan.fixed")
  /\ registered "v9.loan.fixed" = false
  /\ Loans.repay (Fixtures.sdk Fixtures.signerPresent)
       (Fixtures.loanOptions (VNum 3) "v9.loan.fixed")
       (Fixtures.stateOf Fixtures.okHandle)
     = (Returned VUndefined, Fixtures.stateOf Fixtures.okHandle).
Proof.
  split; [reflexivity | split; [reflexivity | split; [reflexivity |]]].
  apply (C7_other_verbs_fall_through (Fixtures.sdk Fixtures.signerPresent)
           (Fixtures.loanOptions (VNum 3) "v9.loan.fixed")
           (Fixtures.stateOf Fixtures.okHandle) "v9.loan.fixed"); reflexivity.
Defined.

(** C9.  When the assertion a router method makes first ([hasAddress] for
    [get], [hasSigner] for the other four) throws, the method returns the
    error handler's result for the thrown error, and nothing else happens:
    no adapter is entered, and the adapters and the trace of contract and
    API calls are unchanged. *)
Theorem C9_precondition_failure {H : Type} (this : Loans.t H) (verb : Verb)
    (options : Value) (st : Loans.State H) (e : Exn) :
  precondition (Loans.assertion this) verb = Thrown e ->
  run this verb options st = (Returned (handle (Loans.error this) e), st).
Proof.
  intros Hpre.
  destruct verb; cbn [run precondition] in *; enter_router; now rewrite Hpre.
Qed.

Lemma C9_witness :
  precondition (Loans.assertion (Fixtures.sdk Fixtures.signerMissing)) Liquidate
  = Thrown (AssertionError "signer is required")
  /\ run (Fixtures.sdk Fixtures.signerMissing) Liquidate
       (Fixtures.loanOptions (VNum 3) "v2-3.loan.fixed")
       (Fixtures.stateOf Fixtures.okHandle)
     = (Returned (VObj [("error", VStr "signer is required")]),
        Fixtures.stateOf Fixtures.okHandle).
Proof.
  split; [reflexivity |].
  apply (C9_precondition_failure (Fixtures.sdk Fixtures.signerMissing) Liquidate
           (Fixtures.loanOptions (VNum 3) "v2-3.loan.fixed")
           (Fixtures.stateOf Fixtures.okHandle)
           (AssertionError "signer is required")); reflexivity.
Defined.

(* ------------------------------------------------------------------ *)
(** ** Pagination defaults of [Listings.get] *)

Lemma truthy_js_or (a b : Value) : truthy b = true -> truthy (js_or a b) = true.
Proof. intros Hb. unfold js_or. destruct (truthy a) eqn:Ha; assumption. Qed.

(** C10.  With the defaults of [config.js] (limit 20, page 1),
    [Listings.get] returns, and makes at most one request: none when
    [nftAddresses.join()] throws, otherwise one [get] of [v0.1/listings]
    whose [page] and [limit] are the supplied values when those are truthy
    and 1 and 20 for every other supplied value (absent, [undefined],
    [null], [0], [NaN], [0n], [''], [false]).  The [page] and [limit] sent
    are therefore truthy: never the Number 0. *)
Theorem C10_falsy_pagination_replaced (this : Listings.t) (options : Value)
    (tr : Trace) :
  Config.pagination_limit (Listings.config this) = VNum 20 ->
  Config.pagination_page (Listings.config this) = VNum 1 ->
  let page := optPath options ["pagination"; "page"] in
  let limit := optPath options ["pagination"; "limit"] in
  let sent_page := if truthy page then page else VNum 1 in
  let sent_limit := if truthy limit then limit else VNum 20 in
  exists v evs,
    Listings.get this options tr = (Returned v, (tr ++ evs)%list) /\
    match Listings.join (js_or (optPath options ["filters"; "nftAddresses"]) (VArr [])) with
    | Returned joined =>
        exists response,
          evs = [EvApiGet "v0.1/listings"
                   (VObj [("nftAddresses", VStr joined);
                          ("page", sent_page); ("limit", sent_limit)])
                   response]
    | Thrown _ => evs = []
    end /\
    truthy sent_page = true /\ truthy sent_limit = true /\
    sent_page <> VNum 0 /\ sent_limit <> VNum 0.
Proof.
  intros Hlimit Hpage page limit sent_page sent_limit.
  assert (Htp : truthy sent_page = true)
    by (apply (truthy_js_or page (VNum 1)); reflexivity).
  assert (Htl : truthy sent_limit = true)
    by (apply (truthy_js_or limit (VNum 20)); reflexivity).
  assert (Hsame : forall k k',
             optPath (match options with VUndefined => VObj [] | _ => options end) [k; k']
             = optPath options [k; k'])
    by (intros k k'; destruct options; reflexivity).
  unfold Listings.get, Listings.params, try_catch, bind, lift, ret, api_get, obind.
  cbv beta. rewrite !Hsame, Hlimit, Hpage.
  fold page limit. unfold js_or at 1 2. fold sent_page sent_limit.
  destruct (Listings.join _) as [joined | e].
  - cbv beta iota.
    match goal with
    | |- context [api_answer ?c ?t ?u ?p] => destruct (api_answer c t u p) as [resp | e] eqn:Hanswer
    end; cbv beta iota.
    + destruct (getProp resp "results") as [results | e]; cbv beta iota;
        [destruct (js_map _ results) as [listings | e] |];
        do 2 eexists;
        (split; [reflexivity |]);
        (split; [eexists; reflexivity |]);
        repeat split; try assumption; intros Heq; rewrite Heq in *; discriminate.
    + do 2 eexists;
        (split; [reflexivity |]);
        (split; [eexists; reflexivity |]);
        repeat split; try assumption; intros Heq; rewrite Heq in *; discriminate.
  - exists (handle (Listings.error this) e), [].
    rewrite app_nil_r.
    repeat split; try assumption; intros Heq; rewrite Heq in *; discriminate.
Qed.

Lemma C10_witness :
  Config.pagination_limit (Listings.config mainnetListings) = VNum 20
  /\ Config.pagination_page (Listings.config mainnetListings) = VNum 1
  /\ snd (Listings.get mainnetListings (paginationOptions (VNum 0) (VNum 0)) [])
     = [EvApiGet "v0.1/listings"
          (VObj [("nftAddresses", VStr ""); ("page", VNum 1); ("limit", VNum 20)])
          (Returned (VObj [("results", VArr [])]))].
Proof.
  split; [reflexivity | split; [reflexivity |]].
  destruct (C10_falsy_pagination_replaced mainnetListings
              (paginationOptions (VNum 0) (VNum 0)) [] eq_refl eq_refl)
    as (v & evs & Hget & Hevs & _).
  rewrite Hget. cbn in Hevs. destruct Hevs as (response & ->).
  cbn in Hget. inversion Hget. reflexivity.
Defined.

(* ------------------------------------------------------------------ *)
(** ** What [acceptOffer] hands over for the two amounts *)

(** The first argument of the contract call carries the two amounts as the
    class printed them. *)
Lemma offer_args_amounts (serialize : Value -> Outcome string) (options : Value)
    (args : list Value) :
  offer_args serialize options = Returned args ->
  exists principal repayment p r offer rest,
    getPath options ["offer"; "terms"; "loan"; "principal"] = Returned principal /\
    getPath options ["offer"; "terms"; "loan"; "repayment"] = Returned repayment /\
    serialize principal = Returned p /\
    serialize repayment = Returned r /\
    args = offer :: rest /\
    optProp offer "loanPrincipalAmount" = VStr p /\
    optProp offer "maximumRepaymentAmount" = VStr r.
Proof.
  unfold offer_args, obind. intros Hargs.
  repeat match type of Hargs with
         | match ?x with _ => _ end = _ => destruct x eqn:?; try discriminate
         end.
  inversion Hargs; subst. repeat eexists; eassumption || reflexivity.
Qed.

(** The collection adapter prints a BigInt amount as its digits. *)
Lemma collection_bigint_amount (z : Z) :
  js_String (VBigInt z) = digits z /\ parse_digits (digits z) = Some z.
Proof. split; [reflexivity | apply js_String_bigint_roundtrip]. Qed.

(* ------------------------------------------------------------------ *)
(** ** More on the router: what reaches the adapter, and what does not *)


Ltac enter_helpers :=
  unfold Loans.with_loan_id, Loans.with_offer_nonce, Loans.invoke, bind, lift, ret;
  cbv beta.

(** What the three forwarding verbs do on a registered name. *)
Lemma forwards_one_value {H : Type} (this : Loans.t H) (verb : Verb)
    (a : AdapterName) (options : Value) (st : Loans.State H) (x : Value) :
  forwards verb = true ->
  hasSigner (Loans.assertion this) = Returned tt ->
  getPath options (name_path verb) = Returned (VStr (version_name a)) ->
  getPath options (argument_path (verb_method verb)) = Returned x ->
  run this verb options st =
    let arg := forwarded (verb_method verb) x in
    let '(o, (h, tr)) :=
      method (adapter (Loans.fixed this) a) (verb_method verb) arg
        (Loans.heap st, Loans.trace st) in
    (Returned (match o with
               | Returned v => wrapped verb v
               | Thrown e => handle (Loans.error this) e
               end),
     {| Loans.invoked := (Loans.invoked st ++ [(a, verb_method verb, arg)])%list;
        Loans.heap := h;
        Loans.trace := tr |}).
Proof.
  intros Hverb Hsigner Hname Harg.
  destruct verb; try discriminate;
    cbn [run name_path verb_method argument_path forwarded wrapped] in *;
    enter_router; rewrite Hsigner, Hname; cbv beta iota;
    destruct a;
    repeat (rewrite switch_skip by reflexivity);
    rewrite switch_hit by reflexivity;
    enter_helpers; rewrite Harg; cbv beta iota;
    match goal with
    | |- context [method ?ad ?m ?arg ?s] =>
        destruct (method ad m arg s) as [[v | e] [h tr]]
    end; reflexivity.
Qed.

(** X1.  With the signer check passing, [liquidate], [repay] and
    [revokeOffer] on a registered contract name enter the matching method
    of the adapter registered under that name, once, and enter nothing
    else.  The adapter does not see the caller's options: it receives a
    fresh [{ loan: { id } }] (or [{ offer: { nonce } }]) holding the one
    value read from them.  [liquidate] and [revokeOffer] return the answer
    as [{ success: answer }], [repay] returns it as it is, and an adapter
    that throws gives the error handler's result. *)
Theorem router_forwards_one_value {H : Type} (this : Loans.t H) (verb : Verb)
    (a : AdapterName) (options : Value) (st : Loans.State H) (x : Value) :
  forwards verb = true ->
  hasSigner (Loans.assertion this) = Returned tt ->
  getPath options (name_path verb) = Returned (VStr (version_name a)) ->
  getPath options (argument_path (verb_method verb)) = Returned x ->
  run this verb options st =
    let arg := forwarded (verb_method verb) x in
    let '(o, (h, tr)) :=
      method (adapter (Loans.fixed this) a) (verb_method verb) arg
        (Loans.heap st, Loans.trace st) in
    (Returned (match o with
               | Returned v => wrapped verb v
               | Thrown e => handle (Loans.error this) e
               end),
     {| Loans.invoked := (Loans.invoked st ++ [(a, verb_method verb, arg)])%list;
        Loans.heap := h;
        Loans.trace := tr |}).
Proof. exact (forwards_one_value this verb a options st x). Qed.

Lemma router_forwards_one_value_witness :
  forwards Repay = true
  /\ hasSigner (Loans.assertion (Fixtures.sdk Fixtures.signerPresent)) = Returned tt
  /\ getPath (Fixtures.loanOptions (VNum 3) "v2-3.loan.fixed") (name_path Repay)
     = Returned (VStr (version_name V2_3))
  /\ getPath (Fixtures.loanOptions (VNum 3) "v2-3.loan.fixed")
       (argument_path (verb_method Repay))
     = Returned (VNum 3)
  /\ Loans.invoked
       (snd (run (Fixtures.sdk Fixtures.signerPresent) Repay
               (Fixtures.loanOptions (VNum 3) "v2-3.loan.fixed")
               (Fixtures.stateOf Fixtures.okHandle)))
     = [(V2_3, PayBackLoan, VObj [("loan", VObj [("id", VNum 3)])])].
Proof.
  repeat (split; [reflexivity |]).
  rewrite (router_forwards_one_value (Fixtures.sdk Fixtures.signerPresent) Repay V2_3
             (Fixtures.loanOptions (VNum 3) "v2-3.loan.fixed")
             (Fixtures.stateOf Fixtures.okHandle) (VNum 3)); reflexivity.
Defined.

(** X2.  With the signer check passing, a verb whose options do not let
    the contract name be read (say [options.nftfi] is missing, so the read
    throws) returns the error handler's result for that error; no adapter
    is entered and nothing else changes. *)
Theorem router_unreadable_name {H : Type} (this : Loans.t H) (verb : Verb)
    (options : Value) (st : Loans.State H) (e : Exn) :
  verb <> Get ->
  hasSigner (Loans.assertion this) = Returned tt ->
  getPath options (name_path verb) = Thrown e ->
  run this verb options st = (Returned (handle (Loans.error this) e), st).
Proof.
  intros Hverb Hsigner Hname.
  destruct verb; try congruence; cbn [run name_path] in *;
    enter_router; now rewrite Hsigner, Hname.
Qed.

Lemma router_unreadable_name_witness :
  Liquidate <> Get
  /\ hasSigner (Loans.assertion (Fixtures.sdk Fixtures.signerPresent)) = Returned tt
  /\ getPath (VObj [("loan", VObj [("id", VNum 3)])]) (name_path Liquidate)
     = Thrown TypeError
  /\ run (Fixtures.sdk Fixtures.signerPresent) Liquidate
       (VObj [("loan", VObj [("id", VNum 3)])]) (Fixtures.stateOf Fixtures.okHandle)
     = (Returned (VObj [("error", VStr "TypeError")]),
        Fixtures.stateOf Fixtures.okHandle).
Proof.
  split; [discriminate | split; [reflexivity | split; [reflexivity |]]].
  apply (router_unreadable_name (Fixtures.sdk Fixtures.signerPresent) Liquidate
           (VObj [("loan", VObj [("id", VNum 3)])])
           (Fixtures.stateOf Fixtures.okHandle) TypeError);
    [discriminate | reflexivity | reflexivity].
Defined.

(** X3.  With the signer check passing and a registered contract name,
    [liquidate], [repay] and [revokeOffer] read their one argument before
    they enter the adapter: when that read throws ([options.loan] or
    [options.offer] is missing), the result is the error handler's and no
    adapter is entered. *)
Theorem router_unreadable_argument {H : Type} (this : Loans.t H) (verb : Verb)
    (a : AdapterName) (options : Value) (st : Loans.State H) (e : Exn) :
  forwards verb = true ->
  hasSigner (Loans.assertion this) = Returned tt ->
  getPath options (name_path verb) = Returned (VStr (version_name a)) ->
  getPath options (argument_path (verb_method verb)) = Thrown e ->
  run this verb options st = (Returned (handle (Loans.error this) e), st).
Proof.
  intros Hverb Hsigner Hname Harg.
  destruct verb; try discriminate;
    cbn [run name_path verb_method argument_path] in *;
    enter_router; rewrite Hsigner, Hname; cbv beta iota;
    destruct a;
    repeat (rewrite switch_skip by reflexivity);
    rewrite switch_hit by reflexivity;
    enter_helpers; rewrite Harg; reflexivity.
Qed.

Lemma router_unreadable_argument_witness :
  forwards RevokeOffer = true
  /\ hasSigner (Loans.assertion (Fixtures.sdk Fixtures.signerPresent)) = Returned tt
  /\ getPath (Fixtures.loanOptions (VNum 3) "v2-1.loan.fixed") (name_path RevokeOffer)
     = Returned (VStr (version_name V2_1))
  /\ getPath (Fixtures.loanOptions (VNum 3) "v2-1.loan.fixed")
       (argument_path (verb_method RevokeOffer))
     = Thrown TypeError
  /\ run (Fixtures.sdk Fixtures.signerPresent) RevokeOffer
       (Fixtures.loanOptions (VNum 3) "v2-1.loan.fixed")
       (Fixtures.stateOf Fixtures.okHandle)
     = (Returned (VObj [("error", VStr "TypeError")]),
        Fixtures.stateOf Fixtures.okHandle).
Proof.
  repeat (split; [reflexivity |]).
  apply (router_unreadable_argument (Fixtures.sdk Fixtures.signerPresent) RevokeOffer
           V2_1 (Fixtures.loanOptions (VNum 3) "v2-1.loan.fixed")
           (Fixtures.stateOf Fixtures.okHandle) TypeError); reflexivity.
Defined.



(* ------------------------------------------------------------------ *)
(** ** More on [Loans.get] *)

(** X5.  [Loans.get] always returns; it never enters an adapter and never
    touches the adapters' state, and it makes at most one request, to
    [v0.1/loans]. *)
Theorem Loans_get_at_most_one_request {H : Type} (this : Loans.t H)
    (options : Value) (st : Loans.State H) :
  exists v evs,
    Loans.get this options st =
      (Returned v,
       {| Loans.invoked := Loans.invoked st;
          Loans.heap := Loans.heap st;
          Loans.trace := (Loans.trace st ++ evs)%list |}) /\
    (evs = [] \/
     exists params response, evs = [EvApiGet "v0.1/loans" params response]).
Proof.
  destruct st as [inv h tr].
  unfold Loans.get, Loans.on_api, try_catch, bind, lift, ret, api_get;
    cbv beta; cbn [Loans.invoked Loans.heap Loans.trace].
  break_match;
    repeat match goal with
           | Heq : (_, _) = (_, _) |- _ => inversion Heq; clear Heq; subst
           end;
    eexists;
    first [ exists (@nil Event); rewrite app_nil_r; split; [reflexivity | now left]
          | eexists; split; [reflexivity | right; now do 2 eexists] ].
Qed.

(** X6.  When the address check passes and the filters can be read,
    [Loans.get] sends the account address and the two filters in one
    request.  If the REST backend answers with an object whose [results]
    is an array, the results come back in the same order, each passed
    through [addCurrencyUnit]; if the backend throws, or answers without
    an array of [results], the caller gets the error handler's result. *)
Theorem Loans_get_maps_results {H : Type} (this : Loans.t H) (options : Value)
    (st : Loans.State H) (address counterparty status : Value) :
  let params := VObj [("accountAddress", address);
                      ("counterparty", counterparty);
                      ("status", status)] in
  let answer := api_answer (Loans.api this) (Loans.trace st) "v0.1/loans" params in
  hasAddress (Loans.assertion this) = Returned tt ->
  getAddress (Loans.account this) = Returned address ->
  getPath options ["filters"; "counterparty"] = Returned counterparty ->
  getPath options ["filters"; "status"] = Returned status ->
  Loans.get this options st =
    (Returned
       match answer with
       | Returned response =>
           match optProp response "results" with
           | VArr results =>
               VArr (map (addCurrencyUnit (Loans.helper this)) results)
           | _ => handle (Loans.error this) TypeError
           end
       | Thrown e => handle (Loans.error this) e
       end,
     {| Loans.invoked := Loans.invoked st;
        Loans.heap := Loans.heap st;
        Loans.trace := (Loans.trace st ++ [EvApiGet "v0.1/loans" params answer])%list |}).
Proof.
  intros params answer Haddress Haccount Hcounterparty Hstatus.
  unfold Loans.get, Loans.on_api, try_catch, bind, lift, ret, api_get; cbv beta.
  rewrite Haddress, Haccount, Hcounterparty, Hstatus. cbv beta iota.
  fold params. fold answer.
  cbn [Loans.invoked Loans.heap Loans.trace].
  destruct answer as [response | e]; [| reflexivity].
  destruct response; try reflexivity; cbn [getProp optProp];
    destruct (lookup "results" props); reflexivity.
Qed.

Lemma Loans_get_maps_results_witness :
  hasAddress (Loans.assertion
                (loansOver (answering (VObj [("results",
                              VArr [VObj [("id", VNum 7)]; VNum 8])])) tagUnit))
  = Returned tt
  /\ getPath (VObj [("filters", VObj [("counterparty", VStr "lender");
                                      ("status", VStr "escrow")])])
       ["filters"; "counterparty"]
     = Returned (VStr "lender")
  /\ fst (Loans.get
            (loansOver (answering (VObj [("results",
                          VArr [VObj [("id", VNum 7)]; VNum 8])])) tagUnit)
            (VObj [("filters", VObj [("counterparty", VStr "lender");
                                     ("status", VStr "escrow")])])
            (Fixtures.stateOf Fixtures.okHandle))
     = Returned (VArr [VObj [("id", VNum 7); ("unit", VStr "ether")]; VNum 8]).
Proof.
  split; [reflexivity | split; [reflexivity |]].
  rewrite (Loans_get_maps_results
             (loansOver (answering (VObj [("results",
                           VArr [VObj [("id", VNum 7)]; VNum 8])])) tagUnit)
             (VObj [("filters", VObj [("counterparty", VStr "lender");
                                      ("status", VStr "escrow")])])
             (Fixtures.stateOf Fixtures.okHandle)
             (VStr "0x00000000") (VStr "lender") (VStr "escrow")); reflexivity.
Defined.

(** X7.  [Loans.get] has no default for its options: when the address
    check passes but [options.filters] cannot be read (no options, or no
    [filters]), the TypeError goes to the error handler and no request is
    made. *)
Theorem Loans_get_needs_filters {H : Type} (this : Loans.t H) (options : Value)
    (st : Loans.State H) (address : Value) (e : Exn) :
  hasAddress (Loans.assertion this) = Returned tt ->
  getAddress (Loans.account this) = Returned address ->
  getPath options ["filters"; "counterparty"] = Thrown e ->
  Loans.get this options st = (Returned (handle (Loans.error this) e), st).
Proof.
  intros Haddress Haccount Hfilters.
  unfold Loans.get, try_catch, bind, lift, ret; cbv beta.
  now rewrite Haddress, Haccount, Hfilters.
Qed.

Lemma Loans_get_needs_filters_witness :
  hasAddress (Loans.assertion (Fixtures.sdk Fixtures.signerPresent)) = Returned tt
  /\ getAddress (Loans.account (Fixtures.sdk Fixtures.signerPresent))
     = Returned (VStr "0x00000000")
  /\ getPath VUndefined ["filters"; "counterparty"] = Thrown TypeError
  /\ Loans.get (Fixtures.sdk Fixtures.signerPresent) VUndefined
       (Fixtures.stateOf Fixtures.okHandle)
     = (Returned (VObj [("error", VStr "TypeError")]),
        Fixtures.stateOf Fixtures.okHandle).
Proof.
  repeat (split; [reflexivity |]).
  apply (Loans_get_needs_filters (Fixtures.sdk Fixtures.signerPresent) VUndefined
           (Fixtures.stateOf Fixtures.okHandle) (VStr "0x00000000") TypeError);
    reflexivity.
Defined.

(* ------------------------------------------------------------------ *)
(** ** More on [Listings.get] *)

Lemma js_String_joins (addresses : list string) :
  js_String (VArr (map VStr addresses)) = String.concat "," addresses.
Proof.
  cbn [js_String]. rewrite map_map. f_equal.
  induction addresses as [| a rest IH]; [reflexivity | cbn [map]; now rewrite IH].
Qed.

(** X8.  When [filters.nftAddresses] is an array of strings, the request
    of [Listings.get] carries them joined by commas in one string (the
    empty string for an empty array). *)
Theorem Listings_joins_addresses (this : Listings.t) (options : Value)
    (addresses : list string) :
  optPath options ["filters"; "nftAddresses"] = VArr (map VStr addresses) ->
  exists page limit,
    Listings.params this options =
      Returned (VObj [("nftAddresses", VStr (String.concat "," addresses));
                      ("page", page); ("limit", limit)]).
Proof.
  intros Haddresses. unfold Listings.params, obind.
  rewrite Haddresses.
  change (js_or (VArr (map VStr addresses)) (VArr [])) with (VArr (map VStr addresses)).
  cbn [Listings.join]. rewrite js_String_joins. now do 2 eexists.
Qed.

Lemma Listings_joins_addresses_witness :
  optPath (VObj [("filters",
                  VObj [("nftAddresses", VArr [VStr "0x11111111"; VStr "0x22222222"])])])
    ["filters"; "nftAddresses"]
  = VArr (map VStr ["0x11111111"; "0x22222222"])
  /\ exists page limit,
       Listings.params mainnetListings
         (VObj [("filters",
                 VObj [("nftAddresses", VArr [VStr "0x11111111"; VStr "0x22222222"])])])
       = Returned (VObj [("nftAddresses",
                          VStr (String.concat "," ["0x11111111"; "0x22222222"]));
                         ("page", page); ("limit", limit)]).
Proof.
  split; [reflexivity |].
  apply (Listings_joins_addresses mainnetListings
           (VObj [("filters",
                   VObj [("nftAddresses",
                          VArr [VStr "0x11111111"; VStr "0x22222222"])])])
           ["0x11111111"; "0x22222222"]).
  reflexivity.
Defined.

(** X9.  A truthy [filters.nftAddresses] that is not an array (a single
    address given as a string, say) has no [join]: [Listings.get] returns
    the error handler's result for the TypeError and makes no request. *)
Theorem Listings_addresses_must_be_array (this : Listings.t) (options : Value)
    (tr : Trace) (nftAddresses : Value) :
  optPath options ["filters"; "nftAddresses"] = nftAddresses ->
  truthy nftAddresses = true ->
  (forall elems, nftAddresses <> VArr elems) ->
  Listings.get this options tr
  = (Returned (handle (Listings.error this) TypeError), tr).
Proof.
  intros Hread Htruthy Harray.
  assert (Hsame : forall k k',
             optPath (match options with VUndefined => VObj [] | _ => options end) [k; k']
             = optPath options [k; k'])
    by (intros k k'; destruct options; reflexivity).
  unfold Listings.get, Listings.params, try_catch, bind, lift, ret, obind; cbv beta.
  rewrite !Hsame, Hread.
  replace (js_or nftAddresses (VArr [])) with nftAddresses
    by (unfold js_or; now rewrite Htruthy).
  destruct nftAddresses; try reflexivity.
  now destruct (Harray elems).
Qed.

Lemma Listings_addresses_must_be_array_witness :
  optPath (VObj [("filters", VObj [("nftAddresses", VStr "0x11111111")])])
    ["filters"; "nftAddresses"] = VStr "0x11111111"
  /\ truthy (VStr "0x11111111") = true
  /\ Listings.get mainnetListings
       (VObj [("filters", VObj [("nftAddresses", VStr "0x11111111")])]) []
     = (Returned (VObj [("error", VStr "TypeError")]), []).
Proof.
  split; [reflexivity | split; [reflexivity |]].
  apply (Listings_addresses_must_be_array mainnetListings
           (VObj [("filters", VObj [("nftAddresses", VStr "0x11111111")])]) []
           (VStr "0x11111111"));
    [reflexivity | reflexivity | discriminate].
Defined.

Lemma params_default (this : Listings.t) (options : Value) :
  Listings.params this (match options with VUndefined => VObj [] | _ => options end)
  = Listings.params this options.
Proof. destruct options; reflexivity. Qed.

(** X10.  When the request can be built, [Listings.get] makes it, once.  If
    the REST backend answers with an object whose [results] is an array,
    the results come back in the same order, each passed through
    [addCurrencyUnit]; if the backend throws, or answers without an array
    of [results], the caller gets the error handler's result. *)
Theorem Listings_get_maps_results (this : Listings.t) (options : Value)
    (tr : Trace) (params : Value) :
  Listings.params this options = Returned params ->
  let answer := api_answer (Listings.api this) tr "v0.1/listings" params in
  Listings.get this options tr =
    (Returned
       match answer with
       | Returned response =>
           match optProp response "results" with
           | VArr results =>
               VArr (map (addCurrencyUnit (Listings.helper this)) results)
           | _ => handle (Listings.error this) TypeError
           end
       | Thrown e => handle (Listings.error this) e
       end,
     (tr ++ [EvApiGet "v0.1/listings" params answer])%list).
Proof.
  intros Hparams answer.
  unfold Listings.get, try_catch, bind, lift, ret, api_get; cbv beta.
  rewrite params_default, Hparams. cbv beta iota. fold answer.
  destruct answer as [response | e]; [| reflexivity].
  destruct response; try reflexivity; cbn [getProp optProp];
    destruct (lookup "results" props); reflexivity.
Qed.

Lemma Listings_get_maps_results_witness :
  Listings.params
    (listingsOver (answering (VObj [("results", VArr [VObj [("id", VNum 7)]])])) tagUnit)
    VUndefined
  = Returned (VObj [("nftAddresses", VStr ""); ("page", VNum 1); ("limit", VNum 20)])
  /\ fst (Listings.get
            (listingsOver (answering (VObj [("results", VArr [VObj [("id", VNum 7)]])]))
               tagUnit)
            VUndefined [])
     = Returned (VArr [VObj [("id", VNum 7); ("unit", VStr "ether")]]).
Proof.
  split; [reflexivity |].
  rewrite (Listings_get_maps_results
             (listingsOver (answering (VObj [("results", VArr [VObj [("id", VNum 7)]])]))
                tagUnit)
             VUndefined []
             (VObj [("nftAddresses", VStr ""); ("page", VNum 1); ("limit", VNum 20)]));
    reflexivity.
Defined.

(* ------------------------------------------------------------------ *)
(** ** More on the adapters: one call per method *)

Ltac split_outcomes :=
  repeat match goal with
         | |- context [match ?x with Returned _ => _ | Thrown _ => _ end] =>
             lazymatch x with
             | context [match _ with _ => _ end] => fail
             | _ => destruct x eqn:?
             end
         end.

(** A method call on an object that holds its handle. *)
Lemma cached_handle_call (fmt : NumberFormat) (m : Method) (options : Value)
    (obj : AdapterObject) (tr : Trace) (h : ContractHandle) :
  cached obj = Some h ->
  send fmt m options (obj, tr) =
    match method_args (class_of obj) fmt m options with
    | Thrown _ => (Returned (negative_shape m), (obj, tr))
    | Returned args =>
        let answer := handle_call h tr (entry_point (class_of obj) m) args in
        (Returned match answer with
                  | Returned receipt => resolved_shape m receipt
                  | Thrown _ => negative_shape m
                  end,
         (obj,
          (tr ++ [EvCall (handle_id h) (entry_point (class_of obj) m) args answer])%list))
    end.
Proof.
  intros Hcached.
  destruct obj as [o | o | o]; cbn [cached] in Hcached;
    [injection Hcached as <- | |];
    destruct m;
    unfold_adapter; cbv beta iota;
    cbn [class_of method_args serializer entry_point argument_path
         negative_shape resolved_shape];
    rewrite ?Hcached; unfold obind; cbv beta iota;
    split_outcomes; cbv beta iota zeta; rewrite ?Hcached;
    repeat match goal with
           | Heq : ?x = Returned _ |- context [?x] => rewrite Heq
           | Heq : ?x = Thrown _ |- context [?x] => rewrite Heq
           end;
    try reflexivity;
    try (destruct (strict_eq_1 _); reflexivity).
Qed.

(** X11.  Once an adapter object holds its handle, a method call is fully
    determined by what it reads from its options: if the arguments cannot
    be read nothing is sent and the negative result comes back; otherwise
    exactly one call goes to the handle, on the method's entry point with
    those arguments, and the result is the receipt's shape (the negative
    shape if the call threw).  The object is left as it was. *)
Theorem send_with_cached_handle (fmt : NumberFormat) (m : Method) (options : Value)
    (obj : AdapterObject) (tr : Trace) (h : ContractHandle) :
  cached obj = Some h ->
  send fmt m options (obj, tr) =
    match method_args (class_of obj) fmt m options with
    | Thrown _ => (Returned (negative_shape m), (obj, tr))
    | Returned args =>
        let answer := handle_call h tr (entry_point (class_of obj) m) args in
        (Returned match answer with
                  | Returned receipt => resolved_shape m receipt
                  | Thrown _ => negative_shape m
                  end,
         (obj,
          (tr ++ [EvCall (handle_id h) (entry_point (class_of obj) m) args answer])%list))
    end.
Proof. exact (cached_handle_call fmt m options obj tr h). Qed.

Lemma send_with_cached_handle_witness :
  cached (Fixtures.v2_1_object (Fixtures.revertedHandle 1))
  = Some (Fixtures.revertedHandle 1)
  /\ send plainFormat LiquidateOverdueLoan
       (Fixtures.loanOptions (VNum 3) "v2-1.loan.fixed")
       (Fixtures.v2_1_object (Fixtures.revertedHandle 1), [])
     = (Returned (VBool false),
        (Fixtures.v2_1_object (Fixtures.revertedHandle 1),
         [EvCall 1 "liquidateOverdueLoan" [VNum 3]
            (Returned (VObj [("status", VNum 0)]))])).
Proof.
  split; [reflexivity |].
  etransitivity;
    [ apply (send_with_cached_handle plainFormat LiquidateOverdueLoan
               (Fixtures.loanOptions (VNum 3) "v2-1.loan.fixed")
               (Fixtures.v2_1_object (Fixtures.revertedHandle 1)) []
               (Fixtures.revertedHandle 1)); reflexivity
    | reflexivity ].
Defined.

(** X12.  With the same handle cached, the v2.1 and the v2.3 adapter answer
    every method alike, and the collection adapter differs from them in
    [acceptOffer] only: same result, same call on the trace. *)
Theorem adapters_agree (fmt : NumberFormat) (m : Method) (options : Value)
    (obj1 obj2 : AdapterObject) (tr : Trace) (h : ContractHandle) :
  cached obj1 = Some h ->
  cached obj2 = Some h ->
  (m = AcceptOffer ->
   class_of obj1 <> ClassCollectionV2_3 /\ class_of obj2 <> ClassCollectionV2_3) ->
  fst (send fmt m options (obj1, tr)) = fst (send fmt m options (obj2, tr)) /\
  snd (snd (send fmt m options (obj1, tr))) = snd (snd (send fmt m options (obj2, tr))).
Proof.
  intros Hcached1 Hcached2 Hclass.
  rewrite (cached_handle_call fmt m options obj1 tr h Hcached1).
  rewrite (cached_handle_call fmt m options obj2 tr h Hcached2).
  assert (Hsame : method_args (class_of obj1) fmt m options
                  = method_args (class_of obj2) fmt m options
                  /\ entry_point (class_of obj1) m = entry_point (class_of obj2) m).
  { destruct m; try (split; reflexivity).
    destruct (Hclass eq_refl) as [H1 H2].
    destruct (class_of obj1), (class_of obj2); try congruence; split; reflexivity. }
  destruct Hsame as [-> ->].
  destruct (method_args _ fmt m options); split; reflexivity.
Qed.

Lemma adapters_agree_witness :
  cached (Fixtures.v2_1_object (Fixtures.okHandle 1)) = Some (Fixtures.okHandle 1)
  /\ cached (ObjV2_3 {| LoansFixedV2_3.config := None;
                        LoansFixedV2_3.contractFactory := None;
                        LoansFixedV2_3.contract := Some (Fixtures.okHandle 1) |})
     = Some (Fixtures.okHandle 1)
  /\ fst (send plainFormat AcceptOffer
            (Fixtures.offer Fixtures.thousand Fixtures.elevenHundred "v2-1.loan.fixed")
            (Fixtures.v2_1_object (Fixtures.okHandle 1), []))
     = fst (send plainFormat AcceptOffer
              (Fixtures.offer Fixtures.thousand Fixtures.elevenHundred "v2-1.loan.fixed")
              (ObjV2_3 {| LoansFixedV2_3.config := None;
                          LoansFixedV2_3.contractFactory := None;
                          LoansFixedV2_3.contract := Some (Fixtures.okHandle 1) |}, [])).
Proof.
  split; [reflexivity | split; [reflexivity |]].
  apply (adapters_agree plainFormat AcceptOffer
           (Fixtures.offer Fixtures.thousand Fixtures.elevenHundred "v2-1.loan.fixed")
           (Fixtures.v2_1_object (Fixtures.okHandle 1))
           (ObjV2_3 {| LoansFixedV2_3.config := None;
                       LoansFixedV2_3.contractFactory := None;
                       LoansFixedV2_3.contract := Some (Fixtures.okHandle 1) |})
           [] (Fixtures.okHandle 1));
    [reflexivity | reflexivity | intros _; split; discriminate].
Defined.

(** [acceptOffer] on an offer that cannot be read. *)
Lemma unreadable_offer (fmt : NumberFormat) (options : Value)
    (obj : AdapterObject) (tr : Trace) (e : Exn) :
  method_args (class_of obj) fmt AcceptOffer options = Thrown e ->
  send fmt AcceptOffer options (obj, tr) = (Returned negative_result, (obj, tr)).
Proof.
  intros Hargs.
  destruct obj as [o | o | o]; cbn [class_of method_args serializer] in Hargs;
    unfold_adapter; cbv beta iota; now rewrite Hargs.
Qed.

(** X13.  [acceptOffer] reads the whole offer before it touches the
    contract: when a read throws (a missing [offer], [terms], [nft],
    [lender] or [nftfi], or an amount that is [undefined]), it returns
    [{ receipt: null, status: false }] with no call made and, in the lazy
    adapters, no handle created. *)
Theorem acceptOffer_unreadable_offer (fmt : NumberFormat) (options : Value)
    (obj : AdapterObject) (tr : Trace) (e : Exn) :
  method_args (class_of obj) fmt AcceptOffer options = Thrown e ->
  send fmt AcceptOffer options (obj, tr) = (Returned negative_result, (obj, tr)).
Proof. exact (unreadable_offer fmt options obj tr e). Qed.

Lemma acceptOffer_unreadable_offer_witness :
  method_args (class_of (obj_v2_3 (Fixtures.heapOf Fixtures.okHandle))) plainFormat
    AcceptOffer (VObj [("offer", VObj [])])
  = Thrown TypeError
  /\ send plainFormat AcceptOffer (VObj [("offer", VObj [])])
       (obj_v2_3 (Fixtures.heapOf Fixtures.okHandle), [])
     = (Returned negative_result, (obj_v2_3 (Fixtures.heapOf Fixtures.okHandle), [])).
Proof.
  split; [reflexivity |].
  apply (acceptOffer_unreadable_offer plainFormat (VObj [("offer", VObj [])])
           (obj_v2_3 (Fixtures.heapOf Fixtures.okHandle)) [] TypeError).
  reflexivity.
Defined.

(** X14.  A creation that throws is not remembered.  On an object of a lazy
    class that holds no handle, a method call whose creation throws returns
    the negative result and leaves the object exactly as it was, so the
    next call asks the factory again. *)
Theorem failed_creation_is_not_cached (fmt : NumberFormat) (c : AdapterClass)
    (options : option AdapterOptions) (obj : AdapterObject) (m : Method)
    (o : Value) (tr0 tr : Trace) (cfg : Config.t) (f : ContractFactory) (e : Exn) :
  c <> ClassV2_1 ->
  new c options tr0 = (Returned obj, tr0) ->
  configured options = Some cfg ->
  factory_of options = Some f ->
  factory_create f tr (Config.address (class_config c cfg))
    (Config.abi (class_config c cfg)) = Thrown e ->
  (m = AcceptOffer -> exists args, method_args c fmt m o = Returned args) ->
  send fmt m o (obj, tr) =
    (Returned (negative_shape m),
     (obj,
      (tr ++ [EvCreate (Config.address (class_config c cfg))
                (Config.abi (class_config c cfg)) (Thrown e)])%list)).
Proof.
  intros Hc Hnew Hcfg Hf Hcreate Hargs.
  destruct options as [[ocfg ofac] |];
    cbn [configured factory_of opt_config opt_contractFactory] in Hcfg, Hf;
    try discriminate; subst ocfg ofac.
  destruct c; [congruence | |];
    cbn in Hnew; injection Hnew as <-;
    cbn [class_config] in *;
    destruct m;
    try (destruct (Hargs eq_refl) as [args Hreadable];
         cbn [method_args serializer] in Hreadable);
    unfold_adapter; cbv beta iota;
    cbn [LoansFixedV2_3.contract LoansFixedV2_3.config LoansFixedV2_3.contractFactory
         LoansFixedCollectionV2_3.contract LoansFixedCollectionV2_3.config
         LoansFixedCollectionV2_3.contractFactory opt_config opt_contractFactory];
    rewrite ?Hreadable; cbv beta iota; rewrite Hcreate; reflexivity.
Qed.

Lemma failed_creation_is_not_cached_witness :
  ClassV2_3 <> ClassV2_1
  /\ new ClassV2_3 (Fixtures.optionsOf Fixtures.downFactory) []
     = (Returned (ObjV2_3 {| LoansFixedV2_3.config := Some Config.mainnetConfig;
                             LoansFixedV2_3.contractFactory := Some Fixtures.downFactory;
                             LoansFixedV2_3.contract := None |}), [])
  /\ send plainFormat PayBackLoan (Fixtures.loanOptions (VNum 3) "v2-3.loan.fixed")
       (ObjV2_3 {| LoansFixedV2_3.config := Some Config.mainnetConfig;
                   LoansFixedV2_3.contractFactory := Some Fixtures.downFactory;
                   LoansFixedV2_3.contract := None |}, [])
     = (Returned (negative_shape PayBackLoan),
        (ObjV2_3 {| LoansFixedV2_3.config := Some Config.mainnetConfig;
                    LoansFixedV2_3.contractFactory := Some Fixtures.downFactory;
                    LoansFixedV2_3.contract := None |},
         ([] ++ [EvCreate
                   (Config.address (class_config ClassV2_3 Config.mainnetConfig))
                   (Config.abi (class_config ClassV2_3 Config.mainnetConfig))
                   (Thrown (Fault (VStr "network down")))])%list)).
Proof.
  split; [discriminate | split; [reflexivity |]].
  apply (failed_creation_is_not_cached plainFormat ClassV2_3
           (Fixtures.optionsOf Fixtures.downFactory)
           (ObjV2_3 {| LoansFixedV2_3.config := Some Config.mainnetConfig;
                       LoansFixedV2_3.contractFactory := Some Fixtures.downFactory;
                       LoansFixedV2_3.contract := None |})
           PayBackLoan (Fixtures.loanOptions (VNum 3) "v2-3.loan.fixed") [] []
           Config.mainnetConfig Fixtures.downFactory (Fault (VStr "network down")));
    (reflexivity || discriminate).
Defined.

(** X15.  The offer's two amounts given as strings reach the contract
    unchanged, whichever of the three adapters handles the offer and
    whatever the host's number formatting: when the rest of the offer can
    be read and the adapter holds a handle once [acceptOffer] is done, the
    one call it has made carries exactly these two strings as
    [loanPrincipalAmount] and [maximumRepaymentAmount]. *)
Theorem string_amounts_pass_through (fmt : NumberFormat) (options : Value)
    (p r : string) (args : list Value) (obj obj' : AdapterObject)
    (tr : Trace) (evs : list Event) (o : Outcome Value) (h : ContractHandle) :
  getPath options ["offer"; "terms"; "loan"; "principal"] = Returned (VStr p) ->
  getPath options ["offer"; "terms"; "loan"; "repayment"] = Returned (VStr r) ->
  method_args (class_of obj) fmt AcceptOffer options = Returned args ->
  send fmt AcceptOffer options (obj, tr) = (o, (obj', (tr ++ evs)%list)) ->
  cached obj' = Some h ->
  calls evs = [(entry_point (class_of obj) AcceptOffer, args)] /\
  Fixtures.sent_amounts evs = [(VStr p, VStr r)].
Proof.
  intros Hp Hr Hargs Hsend Hcached.
  destruct (send_calls _ _ _ _ _ _ _ _ _ _ Hargs Hsend Hcached)
    as (answer & Hevs & _).
  cbn [method_args] in Hargs.
  destruct (offer_args_amounts _ _ _ Hargs)
    as (principal & repayment & p' & r' & offer & rest &
        Hp' & Hr' & Hsp & Hsr & -> & Hop & Hor).
  rewrite Hp in Hp'. injection Hp' as <-.
  rewrite Hr in Hr'. injection Hr' as <-.
  assert (Hser : forall s, serializer (class_of obj) fmt (VStr s) = Returned s)
    by (intros s; destruct (class_of obj); reflexivity).
  rewrite Hser in Hsp, Hsr. injection Hsp as <-. injection Hsr as <-.
  destruct Hevs as [-> | (address & abi & ->)];
    cbn [calls Fixtures.sent_amounts flat_map app]; now rewrite Hop, Hor.
Qed.

Lemma string_amounts_pass_through_witness :
  getPath (Fixtures.offer (VStr "12345678901234567890") (VStr "12345678901234567891")
             "v2-3.loan.fixed.collection")
    ["offer"; "terms"; "loan"; "principal"]
  = Returned (VStr "12345678901234567890")
  /\ cached (fst (snd (send plainFormat AcceptOffer
                         (Fixtures.offer (VStr "12345678901234567890")
                            (VStr "12345678901234567891") "v2-3.loan.fixed.collection")
                         (obj_collection_v2_3 (Fixtures.heapOf Fixtures.okHandle), []))))
     = Some (Fixtures.okHandle 3)
  /\ calls (snd (snd (send plainFormat AcceptOffer
                        (Fixtures.offer (VStr "12345678901234567890")
                           (VStr "12345678901234567891") "v2-3.loan.fixed.collection")
                        (obj_collection_v2_3 (Fixtures.heapOf Fixtures.okHandle), []))))
     = [("acceptCollectionOffer",
         [VObj [("loanERC20Denomination", VStr "0x00000000");
                ("loanPrincipalAmount", VStr "12345678901234567890");
                ("maximumRepaymentAmount", VStr "12345678901234567891");
                ("nftCollateralContract", VStr "0x00000000");
                ("nftCollateralId", VStr "42");
                ("referrer", VStr zero_address);
                ("loanDuration", VNum 604800);
                ("loanAdminFeeInBasisPoints", VNum 500)];
          VObj [("signer", VStr "0x00000000"); ("nonce", VStr "314159265359");
                ("expiry", VNum 1690548548);
                ("signature",
                 VStr "0x000000000000000000000000000000000000000000000000000")];
          VObj [("revenueSharePartner", VStr zero_address);
                ("referralFeeInBasisPoints", VNum 0)]])]
  /\ Fixtures.sent_amounts
       (snd (snd (send plainFormat AcceptOffer
                    (Fixtures.offer (VStr "12345678901234567890")
                       (VStr "12345678901234567891") "v2-3.loan.fixed.collection")
                    (obj_collection_v2_3 (Fixtures.heapOf Fixtures.okHandle), []))))
     = [(VStr "12345678901234567890", VStr "12345678901234567891")].
Proof.
  split; [reflexivity | split; [reflexivity |]].
  apply (string_amounts_pass_through plainFormat
           (Fixtures.offer (VStr "12345678901234567890") (VStr "12345678901234567891")
              "v2-3.loan.fixed.collection")
           "12345678901234567890" "12345678901234567891" _
           (obj_collection_v2_3 (Fixtures.heapOf Fixtures.okHandle))
           (fst (snd (send plainFormat AcceptOffer
                        (Fixtures.offer (VStr "12345678901234567890")
                           (VStr "12345678901234567891") "v2-3.loan.fixed.collection")
                        (obj_collection_v2_3 (Fixtures.heapOf Fixtures.okHandle), []))))
           []
           (snd (snd (send plainFormat AcceptOffer
                        (Fixtures.offer (VStr "12345678901234567890")
                           (VStr "12345678901234567891") "v2-3.loan.fixed.collection")
                        (obj_collection_v2_3 (Fixtures.heapOf Fixtures.okHandle), []))))
           (fst (send plainFormat AcceptOffer
                   (Fixtures.offer (VStr "12345678901234567890")
                      (VStr "12345678901234567891") "v2-3.loan.fixed.collection")
                   (obj_collection_v2_3 (Fixtures.heapOf Fixtures.okHandle), [])))
           (Fixtures.okHandle 3));
    reflexivity.
Defined.

(* ------------------------------------------------------------------ *)
(** ** Router and adapters together *)



(* ------------------------------------------------------------------ *)
(** ** [String(..)] of a Number that is a safe integer *)

Lemma append_assoc' (a b c : string) : ((a ++ b) ++ c = a ++ (b ++ c))%string.
Proof. induction a as [| ch a IH]; [reflexivity | cbn; now rewrite IH]. Qed.

Lemma string_of_revapp (d d' : Decimal.uint) :
  NilEmpty.string_of_uint (Decimal.revapp d d')
  = (NilEmpty.string_of_uint (Decimal.rev d) ++ NilEmpty.string_of_uint d')%string.
Proof.
  revert d'. unfold Decimal.rev.
  induction d as [| d IH | d IH | d IH | d IH | d IH | d IH | d IH | d IH | d IH | d IH];
    intros d'; [reflexivity | ..];
    cbn [Decimal.revapp]; rewrite (IH (_ d')), (IH (_ Decimal.Nil));
    rewrite append_assoc'; reflexivity.
Qed.

Lemma string_of_app (d d' : Decimal.uint) :
  NilEmpty.string_of_uint (Decimal.app d d')
  = (NilEmpty.string_of_uint d ++ NilEmpty.string_of_uint d')%string.
Proof. unfold Decimal.app. now rewrite string_of_revapp, DecimalFacts.rev_rev. Qed.

Lemma zeros_spec (n : nat) :
  String.concat "" (repeat "0" n) = NilEmpty.string_of_uint (Nat.iter n Decimal.D0 Decimal.Nil).
Proof.
  induction n as [| n IH]; [reflexivity |].
  change (Nat.iter (S n) Decimal.D0 Decimal.Nil)
    with (Decimal.D0 (Nat.iter n Decimal.D0 Decimal.Nil)).
  cbn [NilEmpty.string_of_uint]. rewrite <- IH.
  destruct n; reflexivity.
Qed.

Lemma iter_mul10 (n : nat) (s : Z) : Nat.iter n (Z.mul 10) s = s * 10 ^ Z.of_nat n.
Proof.
  induction n as [| n IH]; [cbn; lia |].
  rewrite Nat2Z.inj_succ, Z.pow_succ_r by lia.
  change (Nat.iter (S n) (Z.mul 10) s) with (10 * Nat.iter n (Z.mul 10) s).
  rewrite IH. lia.
Qed.

Lemma parse_digits_zeros (s j : Z) :
  0 < s -> 0 <= j -> parse_digits (digits s ++ zeros j) = Some (s * 10 ^ j).
Proof.
  intros Hs Hj. destruct s as [| p | p]; try lia.
  unfold parse_digits, digits, zeros. cbn [Z.to_int NilZero.string_of_int].
  assert (Hnil : Pos.to_uint p <> Decimal.Nil) by apply DecimalPos.Unsigned.to_uint_nonnil.
  assert (Hstr : NilZero.string_of_uint (Pos.to_uint p)
                 = NilEmpty.string_of_uint (Pos.to_uint p))
    by (unfold NilZero.string_of_uint; destruct (Pos.to_uint p); congruence).
  rewrite Hstr, zeros_spec, <- string_of_app.
  set (u := Decimal.app (Pos.to_uint p) (Nat.iter (Z.to_nat j) Decimal.D0 Decimal.Nil)).
  assert (Hu : u <> Decimal.Nil).
  { unfold u, Decimal.app. intros Hrev. apply DecimalFacts.revapp_nil_inv in Hrev as [Hrev _].
    apply Hnil. rewrite <- (DecimalFacts.rev_rev (Pos.to_uint p)), Hrev. reflexivity. }
  assert (Hsu : NilEmpty.string_of_uint u = NilZero.string_of_int (Decimal.Pos u))
    by (cbn; unfold NilZero.string_of_uint; destruct u; congruence).
  rewrite Hsu, NilZero.isi; [| congruence | discriminate].
  cbn [option_map Z.of_int]. f_equal. unfold u.
  rewrite DecimalZ.of_uint_iter_D0, iter_mul10, Z2Nat.id by lia.
  f_equal. change (Z.of_uint (Pos.to_uint p)) with (Z.of_int (Z.to_int (Z.pos p))).
  apply DecimalZ.of_to.
Qed.

Lemma roundDouble_small (z : Z) : 0 <= z < 2 ^ 53 -> roundDouble z = z.
Proof.
  intros Hz. unfold roundDouble.
  destruct (Z.leb_spec (Z.log2 z) 52) as [Hlog | Hlog]; [reflexivity |].
  exfalso. destruct (Z.eq_dec z 0) as [-> | Hnz]; [cbn in Hlog; lia |].
  assert (Hb : Z.log2 z < 53) by (apply Z.log2_lt_pow2; lia). lia.
Qed.

Lemma roundDouble_large (y : Z) : 2 ^ 53 <= y -> 2 ^ 53 <= roundDouble y.
Proof.
  intros Hy. unfold roundDouble.
  assert (Hlog : 53 <= Z.log2 y) by (apply Z.log2_le_pow2; lia).
  destruct (Z.leb_spec (Z.log2 y) 52) as [Hle | _]; [lia |].
  set (sh := Z.log2 y - 52). cbv zeta.
  assert (Hsh : 1 <= sh) by (unfold sh; lia).
  assert (Hq : 2 ^ 52 <= Z.shiftr y sh).
  { rewrite Z.shiftr_div_pow2 by lia.
    assert (Hpow : 2 ^ Z.log2 y <= y) by (apply Z.log2_spec; lia).
    replace (Z.log2 y) with (52 + sh) in Hpow by (unfold sh; lia).
    rewrite Z.pow_add_r in Hpow by lia.
    apply Z.div_le_lower_bound; lia. }
  rewrite Z.shiftl_mul_pow2 by lia.
  assert (Hp : 2 ^ 1 <= 2 ^ sh) by (apply Z.pow_le_mono_r; lia).
  change (2 ^ 53) with (2 ^ 52 * 2 ^ 1).
  destruct ((Z.shiftl 1 (sh - 1) <? Z.land y (Z.ones sh))
            || (Z.land y (Z.ones sh) =? Z.shiftl 1 (sh - 1)) && Z.odd (Z.shiftr y sh));
    nia.
Qed.

Lemma roundDouble_exact (y x : Z) :
  0 <= y -> 0 <= x < 2 ^ 53 -> roundDouble y = x -> y = x.
Proof.
  intros Hy Hx Hround.
  destruct (Z_lt_le_dec y (2 ^ 53)) as [Hsmall | Hlarge].
  - now rewrite roundDouble_small in Hround by lia.
  - apply roundDouble_large in Hlarge. lia.
Qed.

Lemma count_digits_bound (fuel : nat) :
  forall x j, 1 <= j -> 0 <= x < 10 ^ j -> 1 <= count_digits fuel x <= j \/ fuel = O.
Proof.
  induction fuel as [| fuel IH]; intros x j Hj Hx; [now right |].
  left. cbn [count_digits].
  destruct (Z.ltb_spec x 10) as [Hlt | Hge]; [lia |].
  assert (Hj2 : 2 <= j).
  { destruct (Z.eq_dec j 1) as [-> | ]; [change (10 ^ 1) with 10 in Hx |]; lia. }
  assert (Hdiv : 0 <= x / 10 < 10 ^ (j - 1)).
  { split; [apply Z.div_pos; lia |].
    apply Z.div_lt_upper_bound; [lia |].
    replace j with (Z.succ (j - 1)) in Hx by lia.
    rewrite Z.pow_succ_r in Hx by lia. lia. }
  destruct (IH (x / 10) (j - 1) ltac:(lia) Hdiv) as [Hrec | ->]; [lia |].
  cbn [count_digits]. lia.
Qed.

Lemma num_digits_safe (x : Z) : 0 <= x < 2 ^ 53 -> num_digits x <= 16.
Proof.
  intros Hx. unfold num_digits.
  destruct (count_digits_bound (Z.to_nat (Z.log2 x) + 1) x 16 ltac:(lia)) as [Hb | Hb];
    [| lia | lia].
  assert (2 ^ 53 < 10 ^ 16) by (vm_compute; reflexivity). lia.
Qed.

Lemma candidates_sound (x k n0 s n : Z) :
  In (s, n) (candidates x k n0) ->
  n = n0 /\ k <= n /\ 10 ^ (k - 1) <= s /\ roundDouble (s * 10 ^ (n - k)) = x.
Proof.
  unfold candidates. destruct (Z.ltb_spec n0 k) as [Hlt | Hge]; [intros [] |].
  cbv zeta. rewrite in_map_iff. intros (s' & [= <- <-] & Hin).
  apply filter_In in Hin as [_ Hok].
  apply andb_true_iff in Hok as [Hok Hround].
  apply andb_true_iff in Hok as [Hlow _].
  apply Z.leb_le in Hlow. apply Z.eqb_eq in Hround. auto.
Qed.

Lemma shortest_sound (fuel : nat) :
  forall x k s k' n,
    shortest fuel x k = Some (s, k', n) ->
    1 <= k ->
    1 <= k' /\ k' <= n <= num_digits x + 1 /\ 10 ^ (k' - 1) <= s /\
    roundDouble (s * 10 ^ (n - k')) = x.
Proof.
  induction fuel as [| fuel IH]; intros x k s k' n Hshort Hk; [discriminate |].
  cbn [shortest] in Hshort. cbv zeta in Hshort.
  destruct (candidates x k (num_digits x) ++ candidates x k (num_digits x + 1))%list
    as [| [s0 n0] rest] eqn:Hcands.
  - apply IH in Hshort; [assumption | lia].
  - injection Hshort as <- <- <-.
    assert (Hin : In (s0, n0) (candidates x k (num_digits x)
                               ++ candidates x k (num_digits x + 1))%list)
      by (rewrite Hcands; now left).
    apply in_app_or in Hin as [Hin | Hin];
      apply candidates_sound in Hin as (-> & Hkn & Hs & Hround); repeat split; lia || assumption.
Qed.

Lemma number_toString_safe (z : Z) :
  0 <= z < 2 ^ 53 -> parse_digits (number_toString z) = Some z.
Proof.
  intros Hz. unfold number_toString.
  rewrite Z.abs_eq, roundDouble_small by lia. cbv zeta.
  destruct (Z.ltb_spec z 0) as [Hneg | _]; [lia |].
  destruct (Z.eqb_spec z 0) as [-> | Hnz]; [reflexivity |].
  assert (Hover : overflows z = false).
  { unfold overflows. apply Z.leb_gt.
    assert (2 ^ 53 < 2 ^ 1024) by (apply Z.pow_lt_mono_r; lia). lia. }
  rewrite Hover.
  destruct (shortest 17 z 1) as [[[s k] n] |] eqn:Hshort.
  - apply shortest_sound in Hshort as (Hk & Hn & Hs & Hround); [| lia].
    pose proof (num_digits_safe z Hz) as Hd.
    destruct (Z.leb_spec n 21) as [_ | Hbig]; [| lia].
    assert (Hpos : 0 < 10 ^ (k - 1)) by (apply Z.pow_pos_nonneg; lia).
    assert (Hp : 0 <= 10 ^ (n - k)) by (apply Z.pow_nonneg; lia).
    apply roundDouble_exact in Hround; [| nia | lia].
    cbn [append]. rewrite parse_digits_zeros by lia. now rewrite Hround.
  - cbn [append]. apply (js_String_bigint_roundtrip z).
Qed.

(** X17.  The collection adapter hands the contract exact amounts whenever
    the principal and the repayment are non-negative integers below 2^53
    given as Numbers, BigInts, or strings of digits: when the rest of the
    offer can be read and the adapter holds a handle once [acceptOffer] is
    done, the one call it has made is to ["acceptCollectionOffer"], and its
    two amount strings read back as those very integers.  (From 1e21 on a
    Number is printed in exponent notation instead.) *)
Theorem collection_amounts_exact (fmt : NumberFormat) (options : Value)
    (principal repayment : Value) (z1 z2 : Z) (args : list Value)
    (obj obj' : AdapterObject) (tr : Trace) (evs : list Event)
    (o : Outcome Value) (h : ContractHandle) :
  class_of obj = ClassCollectionV2_3 ->
  getPath options ["offer"; "terms"; "loan"; "principal"] = Returned principal ->
  getPath options ["offer"; "terms"; "loan"; "repayment"] = Returned repayment ->
  exact_amount principal = Some z1 ->
  exact_amount repayment = Some z2 ->
  method_args ClassCollectionV2_3 fmt AcceptOffer options = Returned args ->
  send fmt AcceptOffer options (obj, tr) = (o, (obj', (tr ++ evs)%list)) ->
  cached obj' = Some h ->
  exists p r,
    calls evs = [("acceptCollectionOffer", args)] /\
    Fixtures.sent_amounts evs = [(VStr p, VStr r)] /\
    parse_digits p = Some z1 /\
    parse_digits r = Some z2.
Proof.
  intros Hclass Hp Hr Hz1 Hz2 Hargs Hsend Hcached.
  assert (Hexact : forall v z, exact_amount v = Some z ->
                               parse_digits (js_String v) = Some z).
  { intros v z Hv. destruct v; try discriminate; cbn [exact_amount js_String] in *.
    - destruct (Z.leb_spec 0 z0), (Z.ltb_spec z0 (2 ^ 53)); try discriminate.
      injection Hv as <-. apply number_toString_safe. lia.
    - injection Hv as <-. apply js_String_bigint_roundtrip.
    - assumption. }
  rewrite <- Hclass in Hargs.
  destruct (send_calls _ _ _ _ _ _ _ _ _ _ Hargs Hsend Hcached)
    as (answer & Hevs & _).
  rewrite Hclass in Hargs, Hevs. cbn [method_args serializer entry_point] in Hargs, Hevs.
  destruct (offer_args_amounts _ _ _ Hargs)
    as (principal' & repayment' & p & r & offer & rest &
        Hp' & Hr' & Hsp & Hsr & -> & Hop & Hor).
  rewrite Hp in Hp'. injection Hp' as <-.
  rewrite Hr in Hr'. injection Hr' as <-.
  injection Hsp as <-. injection Hsr as <-.
  exists (js_String principal), (js_String repayment).
  destruct Hevs as [-> | (address & abi & ->)];
    cbn [calls Fixtures.sent_amounts flat_map app]; rewrite Hop, Hor; auto.
Qed.

Lemma collection_amounts_exact_witness :
  exact_amount (VNum 1000000000000000) = Some 1000000000000000
  /\ exact_amount (VBigInt 12345678901234567890) = Some 12345678901234567890
  /\ exists p r,
       calls (snd (snd (send plainFormat AcceptOffer
                          (Fixtures.offer (VNum 1000000000000000)
                             (VBigInt 12345678901234567890)
                             "v2-3.loan.fixed.collection")
                          (obj_collection_v2_3 (Fixtures.heapOf Fixtures.okHandle), []))))
       = [("acceptCollectionOffer",
           [VObj [("loanERC20Denomination", VStr "0x00000000");
                  ("loanPrincipalAmount", VStr "1000000000000000");
                  ("maximumRepaymentAmount", VStr "12345678901234567890");
                  ("nftCollateralContract", VStr "0x00000000");
                  ("nftCollateralId", VStr "42");
                  ("referrer", VStr zero_address);
                  ("loanDuration", VNum 604800);
                  ("loanAdminFeeInBasisPoints", VNum 500)];
            VObj [("signer", VStr "0x00000000"); ("nonce", VStr "314159265359");
                  ("expiry", VNum 1690548548);
                  ("signature",
                   VStr "0x000000000000000000000000000000000000000000000000000")];
            VObj [("revenueSharePartner", VStr zero_address);
                  ("referralFeeInBasisPoints", VNum 0)]])] /\
       Fixtures.sent_amounts
         (snd (snd (send plainFormat AcceptOffer
                      (Fixtures.offer (VNum 1000000000000000)
                         (VBigInt 12345678901234567890)
                         "v2-3.loan.fixed.collection")
                      (obj_collection_v2_3 (Fixtures.heapOf Fixtures.okHandle), []))))
       = [(VStr p, VStr r)] /\
       parse_digits p = Some 1000000000000000 /\
       parse_digits r = Some 12345678901234567890.
Proof.
  split; [reflexivity | split; [reflexivity |]].
  apply (collection_amounts_exact plainFormat
           (Fixtures.offer (VNum 1000000000000000) (VBigInt 12345678901234567890)
              "v2-3.loan.fixed.collection")
           (VNum 1000000000000000) (VBigInt 12345678901234567890)
           1000000000000000 12345678901234567890 _
           (obj_collection_v2_3 (Fixtures.heapOf Fixtures.okHandle))
           (fst (snd (send plainFormat AcceptOffer
                        (Fixtures.offer (VNum 1000000000000000)
                           (VBigInt 12345678901234567890)
                           "v2-3.loan.fixed.collection")
                        (obj_collection_v2_3 (Fixtures.heapOf Fixtures.okHandle), []))))
           []
           (snd (snd (send plainFormat AcceptOffer
                        (Fixtures.offer (VNum 1000000000000000)
                           (VBigInt 12345678901234567890)
                           "v2-3.loan.fixed.collection")
                        (obj_collection_v2_3 (Fixtures.heapOf Fixtures.okHandle), []))))
           (fst (send plainFormat AcceptOffer
                   (Fixtures.offer (VNum 1000000000000000)
                      (VBigInt 12345678901234567890)
                      "v2-3.loan.fixed.collection")
                   (obj_collection_v2_3 (Fixtures.heapOf Fixtures.okHandle), [])))
           (Fixtures.okHandle 3));
    reflexivity.
Defined.

(* ------------------------------------------------------------------ *)
(** ** [begin] through the router, and amounts that are missing *)

(** X18.  With the three adapter classes wired into the router, a [begin]
    that names one of them and gets past the signer check hands the
    caller's options to that adapter's [acceptOffer] and returns its
    [{ receipt, status }], never the error handler's result; the status is
    true exactly when the contract call resolved with a receipt of status
    1, and the other adapters keep their objects. *)
Theorem sdk_begin_reports_receipt_status (fmt : NumberFormat)
    (a_v1 a_v2 a_collection_v2 : Adapter Heap) (this : Loans.t Heap)
    (a : AdapterName) (obj : AdapterObject) (options : Value)
    (st : Loans.State Heap) :
  Loans.fixed this = sdk_fixed fmt a_v1 a_v2 a_collection_v2 ->
  hasSigner (Loans.assertion this) = Returned tt ->
  getPath options (name_path Begin) = Returned (VStr (version_name a)) ->
  object_at a (Loans.heap st) = Some obj ->
  exists v heap' evs,
    Loans.begin this options st =
      (Returned v,
       {| Loans.invoked := (Loans.invoked st ++ [(a, AcceptOffer, options)])%list;
          Loans.heap := heap';
          Loans.trace := (Loans.trace st ++ evs)%list |}) /\
    v = expected AcceptOffer evs /\
    reported_status v = resolved_with_status_1 evs /\
    forall a', a' <> a -> object_at a' heap' = object_at a' (Loans.heap st).
Proof.
  intros Hfixed Hsigner Hname Hobj. cbn [name_path] in Hname.
  destruct (send_spec fmt AcceptOffer options obj (Loans.trace st))
    as (v & obj' & evs & Hsend & _ & Hstep & Hv).
  enter_router. rewrite Hsigner, Hname. cbv beta iota.
  destruct a; cbn [object_at] in Hobj; try discriminate; injection Hobj as <-;
    repeat (rewrite switch_skip by reflexivity);
    rewrite switch_hit by reflexivity;
    unfold Loans.invoke; rewrite Hfixed;
    cbn [adapter sdk_fixed v2_1 v2_3 collection_v2_3 method object_adapter acceptOffer];
    unfold at_object; rewrite Hsend; cbv beta iota;
    (eexists v, _, evs; split; [reflexivity |]);
    (split; [assumption |]);
    (split; [rewrite Hv; eapply step_events_status; eassumption |]);
    intros a' Ha'; destruct a'; try reflexivity; congruence.
Qed.

Lemma sdk_begin_reports_receipt_status_witness :
  Loans.fixed (Fixtures.sdk Fixtures.signerPresent)
  = sdk_fixed plainFormat Fixtures.absentAdapter Fixtures.absentAdapter
      Fixtures.absentAdapter
  /\ object_at V2_1 (Loans.heap (Fixtures.stateOf Fixtures.revertedHandle))
     = Some (obj_v2_1 (Fixtures.heapOf Fixtures.revertedHandle))
  /\ exists v heap' evs,
       Loans.begin (Fixtures.sdk Fixtures.signerPresent)
         (Fixtures.offer (VStr "1000") (VStr "1100") "v2-1.loan.fixed")
         (Fixtures.stateOf Fixtures.revertedHandle)
       = (Returned v,
          {| Loans.invoked :=
               (Loans.invoked (Fixtures.stateOf Fixtures.revertedHandle)
                ++ [(V2_1, AcceptOffer,
                     Fixtures.offer (VStr "1000") (VStr "1100") "v2-1.loan.fixed")])%list;
             Loans.heap := heap';
             Loans.trace :=
               (Loans.trace (Fixtures.stateOf Fixtures.revertedHandle) ++ evs)%list |})
       /\ v = expected AcceptOffer evs
       /\ reported_status v = resolved_with_status_1 evs
       /\ forall a', a' <> V2_1 ->
            object_at a' heap'
            = object_at a' (Loans.heap (Fixtures.stateOf Fixtures.revertedHandle)).
Proof.
  split; [reflexivity | split; [reflexivity |]].
  apply (sdk_begin_reports_receipt_status plainFormat Fixtures.absentAdapter
           Fixtures.absentAdapter Fixtures.absentAdapter
           (Fixtures.sdk Fixtures.signerPresent) V2_1
           (obj_v2_1 (Fixtures.heapOf Fixtures.revertedHandle))
           (Fixtures.offer (VStr "1000") (VStr "1100") "v2-1.loan.fixed")
           (Fixtures.stateOf Fixtures.revertedHandle)); reflexivity.
Defined.

(** X19.  An offer whose principal is [undefined] or [null] is treated
    differently by the two families.  The individual adapters fail on
    [toLocaleString] and return [{ receipt: null, status: false }] without
    a call.  The collection adapter prints it with [String(..)]: when the
    rest of the offer can be read and the adapter holds a handle once
    [acceptOffer] is done, the one call it has made is to
    ["acceptCollectionOffer"] and carries the text ['undefined'] (or
    ['null']) as [loanPrincipalAmount]. *)
Theorem missing_principal (fmt : NumberFormat) (options principal : Value)
    (obj : AdapterObject) (tr : Trace) :
  getPath options ["offer"; "terms"; "loan"; "principal"] = Returned principal ->
  principal = VUndefined \/ principal = VNull ->
  match class_of obj with
  | ClassV2_1 | ClassV2_3 =>
      send fmt AcceptOffer options (obj, tr) = (Returned negative_result, (obj, tr))
  | ClassCollectionV2_3 =>
      forall (args : list Value) (o : Outcome Value) (obj' : AdapterObject)
             (evs : list Event) (h : ContractHandle),
        method_args ClassCollectionV2_3 fmt AcceptOffer options = Returned args ->
        send fmt AcceptOffer options (obj, tr) = (o, (obj', (tr ++ evs)%list)) ->
        cached obj' = Some h ->
        calls evs = [("acceptCollectionOffer", args)] /\
        exists repayment,
          Fixtures.sent_amounts evs
          = [(VStr match principal with VNull => "null" | _ => "undefined" end,
              repayment)]
  end.
Proof.
  intros Hp Hnullish.
  assert (Hindividual : forall c, c <> ClassCollectionV2_3 ->
            exists e, method_args c fmt AcceptOffer options = Thrown e).
  { intros c Hc. cbn [method_args].
    replace (serializer c fmt) with (toLocaleString fmt)
      by (destruct c; try reflexivity; congruence).
    unfold offer_args, obind.
    destruct (getPath options ["offer"; "terms"; "loan"; "currency"]);
      [| now eexists].
    rewrite Hp. destruct Hnullish as [-> | ->]; now eexists. }
  destruct obj as [o | o | o]; cbn [class_of].
  - destruct (Hindividual ClassV2_1 ltac:(discriminate)) as [e He].
    now apply (unreadable_offer fmt options (ObjV2_1 o) tr e).
  - destruct (Hindividual ClassV2_3 ltac:(discriminate)) as [e He].
    now apply (unreadable_offer fmt options (ObjV2_3 o) tr e).
  - intros args out obj' evs h Hargs Hsend Hcached.
    destruct (send_calls fmt AcceptOffer options (ObjCollectionV2_3 o) obj' tr evs
                args out h Hargs Hsend Hcached) as (answer & Hevs & _).
    cbn [class_of entry_point method_args serializer] in Hargs, Hevs.
    destruct (offer_args_amounts _ _ _ Hargs)
      as (principal' & repayment' & p & r & offer & rest &
          Hp' & _ & Hsp & _ & -> & Hop & _).
    rewrite Hp in Hp'. injection Hp' as <-. injection Hsp as <-.
    assert (Hprint : js_String principal
                     = match principal with VNull => "null" | _ => "undefined" end)
      by (destruct Hnullish as [-> | ->]; reflexivity).
    rewrite Hprint in Hop.
    destruct Hevs as [-> | (address & abi & ->)];
      cbn [calls Fixtures.sent_amounts flat_map app]; rewrite Hop;
      (split; [reflexivity | now eexists]).
Qed.

Lemma missing_principal_witness :
  getPath (Fixtures.offer VUndefined (VNum 1100) "v2-3.loan.fixed.collection")
    ["offer"; "terms"; "loan"; "principal"] = Returned VUndefined
  /\ (calls (snd (snd (send plainFormat AcceptOffer
                         (Fixtures.offer VUndefined (VNum 1100)
                            "v2-3.loan.fixed.collection")
                         (obj_collection_v2_3 (Fixtures.heapOf Fixtures.okHandle), []))))
      = [("acceptCollectionOffer",
          [VObj [("loanERC20Denomination", VStr "0x00000000");
                 ("loanPrincipalAmount", VStr "undefined");
                 ("maximumRepaymentAmount", VStr "1100");
                 ("nftCollateralContract", VStr "0x00000000");
                 ("nftCollateralId", VStr "42");
                 ("referrer", VStr zero_address);
                 ("loanDuration", VNum 604800);
                 ("loanAdminFeeInBasisPoints", VNum 500)];
           VObj [("signer", VStr "0x00000000"); ("nonce", VStr "314159265359");
                 ("expiry", VNum 1690548548);
                 ("signature",
                  VStr "0x000000000000000000000000000000000000000000000000000")];
           VObj [("revenueSharePartner", VStr zero_address);
                 ("referralFeeInBasisPoints", VNum 0)]])] /\
      exists repayment,
        Fixtures.sent_amounts
          (snd (snd (send plainFormat AcceptOffer
                       (Fixtures.offer VUndefined (VNum 1100)
                          "v2-3.loan.fixed.collection")
                       (obj_collection_v2_3 (Fixtures.heapOf Fixtures.okHandle), []))))
        = [(VStr "undefined", repayment)])
  /\ send plainFormat AcceptOffer
       (Fixtures.offer VUndefined (VNum 1100) "v2-3.loan.fixed.collection")
       (Fixtures.v2_1_object (Fixtures.okHandle 1), [])
     = (Returned negative_result, (Fixtures.v2_1_object (Fixtures.okHandle 1), [])).
Proof.
  split; [reflexivity | split].
  - apply (missing_principal plainFormat
             (Fixtures.offer VUndefined (VNum 1100) "v2-3.loan.fixed.collection")
             VUndefined (obj_collection_v2_3 (Fixtures.heapOf Fixtures.okHandle)) []
             eq_refl (or_introl eq_refl) _
             (fst (send plainFormat AcceptOffer
                     (Fixtures.offer VUndefined (VNum 1100)
                        "v2-3.loan.fixed.collection")
                     (obj_collection_v2_3 (Fixtures.heapOf Fixtures.okHandle), [])))
             (fst (snd (send plainFormat AcceptOffer
                          (Fixtures.offer VUndefined (VNum 1100)
                             "v2-3.loan.fixed.collection")
                          (obj_collection_v2_3 (Fixtures.heapOf Fixtures.okHandle), []))))
             (snd (snd (send plainFormat AcceptOffer
                          (Fixtures.offer VUndefined (VNum 1100)
                             "v2-3.loan.fixed.collection")
                          (obj_collection_v2_3 (Fixtures.heapOf Fixtures.okHandle), []))))
             (Fixtures.okHandle 3));
      reflexivity.
  - apply (missing_principal plainFormat
             (Fixtures.offer VUndefined (VNum 1100) "v2-3.loan.fixed.collection")
             VUndefined (Fixtures.v2_1_object (Fixtures.okHandle 1)) []);
      [reflexivity | now left].
Defined.
